(** * Ghostnote: stem-selection policy and mix orchestration (app.py)

    A shallow embedding of [src/app.py] and the properties of its
    instrument normaliser, preset selectors, stem cache check, composition
    planning and mixer invocation.

    Conventions of the embedding.
    - A Python [str] is a [string]; its characters are read as the code
      points 0..255, on which [str.lower] and [str.strip] act as below.
    - A value that may be [None] is an [option].
    - The file system is a finite map from path text to file size; a path
      is the text [str(Path)] gives for relative paths whose components
      hold no separator.  Directories are not tracked.
    - The separation engine, the mixer process and the helpers of the web
      framework are fields of a record [world]; the code is a function of
      the world, the request and the state. *)

From Stdlib Require Import Ascii NArith DecimalString.
From stdpp Require Import gmap strings list fin_maps sorting.

Local Open Scope N_scope.

(** ** Python string primitives *)

Module Py.

(** [str.isspace] on one character, for code points below 256. *)
Definition isspace (c : ascii) : bool :=
  let n := N_of_ascii c in
  ((9 <=? n) && (n <=? 13)) || ((28 <=? n) && (n <=? 32))
  || (n =? 133) || (n =? 160).

(** [str.lower] on one character, for code points below 256: the
    letters A-Z and the upper-case letters of 192..222 (215, the
    multiplication sign, is not one) move up by 32. *)
Definition lower_char (c : ascii) : ascii :=
  let n := N_of_ascii c in
  if ((65 <=? n) && (n <=? 90))
     || ((192 <=? n) && (n <=? 222) && negb (n =? 215))
  then ascii_of_N (n + 32) else c.

Fixpoint lower (s : string) : string :=
  match s with
  | EmptyString => EmptyString
  | String c r => String (lower_char c) (lower r)
  end.

Fixpoint lstrip (s : string) : string :=
  match s with
  | EmptyString => EmptyString
  | String c r => if isspace c then lstrip r else s
  end.

Fixpoint rstrip (s : string) : string :=
  match s with
  | EmptyString => EmptyString
  | String c r =>
      match rstrip r with
      | EmptyString => if isspace c then EmptyString else String c EmptyString
      | r' => String c r'
      end
  end.

(** [s.strip()] *)
Definition strip (s : string) : string := rstrip (lstrip s).

(** [sep.join(l)] *)
Fixpoint join (sep : string) (l : list string) : string :=
  match l with
  | [] => ""
  | [x] => x
  | x :: r => x +:+ sep +:+ join sep r
  end.

(** [str(n)] for a natural number *)
Definition str_of_nat (n : nat) : string :=
  NilZero.string_of_uint (Nat.to_uint n).

(** [x or d] for an optional text [x]: [None] and [''] are falsy. *)
Definition or_else (x : option string) (d : string) : string :=
  match x with
  | Some (String c r) => String c r
  | _ => d
  end.

(** [sorted(s)] for a set of texts: the members in ascending order of
    their code points. *)
Definition sorted (s : gset string) : list string :=
  merge_sort String.le (elements s).

(** [os.path.splitext] of a name that holds no path separator: the
    extension starts at the last dot, unless only dots come before it. *)
Fixpoint all_dots (s : string) : bool :=
  match s with
  | EmptyString => true
  | String c r => if Ascii.eqb c "." then all_dots r else false
  end.

Fixpoint split_last_dot (s : string) : option (string * string) :=
  match s with
  | EmptyString => None
  | String c r =>
      match split_last_dot r with
      | Some (a, b) => Some (String c a, b)
      | None => if Ascii.eqb c "." then Some (EmptyString, s) else None
      end
  end.

Definition splitext (p : string) : string * string :=
  match split_last_dot p with
  | Some (root, ext) => if all_dots root then (p, "") else (root, ext)
  | None => (p, "")
  end.

End Py.

(** ** Helpers of app.py *)

(** [ALLOWED] *)
Definition ALLOWED : list string := [".mp3"; ".wav"; ".flac"; ".m4a"; ".ogg"].

Definition UPLOAD_DIR : string := "uploads".
Definition OUTPUT_ROOT : string := "static/output".

(** [Path / name] *)
Definition path_join (d n : string) : string := d +:+ "/" +:+ n.

(** [normalize_instrument_name] *)
Definition normalize_instrument_name (name : option string) : string :=
  let n := Py.lower (Py.strip (Py.or_else name "")) in
  if bool_decide (n ∈ ["voice"; "vocal"]) then "vocals" else n.

(** [pick_preset_single] *)
Definition pick_preset_single (instrument : option string) (karaoke_fast : bool)
  : string :=
  let t := normalize_instrument_name instrument in
  if bool_decide (t = "piano") then "5stems"
  else if karaoke_fast && bool_decide (t = "vocals") then "2stems"
  else "4stems".

(** [pick_preset_multi] *)
Definition pick_preset_multi (removals : list string) : string :=
  let rset : gset string :=
    list_to_set ((λ x, normalize_instrument_name (Some x)) <$> removals) in
  if bool_decide (rset = {["vocals"]}) then "4stems"
  else if bool_decide ("piano" ∈ rset) then "5stems"
  else "4stems".

(** [expected_stems_for]: the dictionary in insertion order; [None] is the
    [ValueError] of an unknown preset. *)
Definition expected_stems_for (preset : string) : option (list (string * string)) :=
  if bool_decide (preset = "2stems") then
    Some [("vocals", "vocals.wav"); ("accompaniment", "accompaniment.wav")]
  else if bool_decide (preset = "4stems") then
    Some [("vocals", "vocals.wav"); ("drums", "drums.wav");
          ("bass", "bass.wav"); ("other", "other.wav")]
  else if bool_decide (preset = "5stems") then
    Some [("vocals", "vocals.wav"); ("drums", "drums.wav");
          ("bass", "bass.wav"); ("piano", "piano.wav"); ("other", "other.wav")]
  else None.

(** ** The request, the responses and the world *)

(** The uploaded [FileStorage]: its client file name and the size of its
    content. *)
Record upload := Upload { up_filename : option string; up_size : N }.

(** What [process] reads of the request: [request.files.get('audio_file')]
    and the form fields ([form.get] gives [None] for an absent key,
    [form.getlist] the values in order). *)
Record request := Request {
  audio_file : option upload;
  form_multi : option string;
  form_remove_multi : list string;
  form_instrument : option string;
  form_action : option string;
  form_karaoke : option string
}.

(** The keyword arguments given to [render_template('result.html', ...)]. *)
Record result_ctx := ResultCtx {
  ctx_mix_url : string;
  ctx_preset : string;
  ctx_is_multi : bool;
  ctx_removals : list string;
  ctx_instrument : string;
  ctx_action : string;
  ctx_stems_dir : string;
  ctx_file_name : string
}.

(** What the view returns: [return body, status], a rendered template
    (status 200), or an exception that no handler of the view catches. *)
Inductive response :=
| Text (body : string) (status : N)
| Template (name : string) (ctx : result_ctx)
| Unhandled (exc : string).

(** [subprocess.run(..., check=True)]: exit status 0, or
    [CalledProcessError] carrying the captured standard error, here as the
    text [e.stderr.decode('utf-8', 'ignore')] gives. *)
Inductive run_result :=
| Completed
| CalledProcessError (stderr : string).

(** The calls that leave the process or touch the file system, in order. *)
Inductive event :=
| EvSave (path : string) (size : N)
| EvMkdir (path : string)
| EvNewSeparator (preset : string)
| EvSeparate (preset in_path out_root : string)
| EvUnlink (path : string)
| EvRun (args : list string).

Abbreviation files := (gmap string N).

(** The collaborators.  [separate_to_file] is the engine of a preset run
    on an input path and an output root: it may write files and may raise
    (the text of the exception).  [subprocess_run] is the mixer process. *)
Record world := World {
  secure_filename : string → string;
  separate_to_file : string → string → string → files → option string * files;
  unlink_raises : string → files → bool;
  subprocess_run : list string → files → run_result * files;
  repr_list : list string → string;
  url_for_static : string → string
}.

(** The state a request runs in: the files, the keys of [_separators], and
    the calls made so far (latest last). *)
Record state := State {
  fs : files;
  separators : gset string;
  trace : list event
}.

(** ** Early return *)

Inductive outcome (A : Type) :=
| Continue (a : A)
| Return (r : response).
Arguments Continue {A} a.
Arguments Return {A} r.

Definition M (A : Type) : Type := state → outcome A * state.

Definition ret {A} (a : A) : M A := λ st, (Continue a, st).
Definition exit {A} (r : response) : M A := λ st, (Return r, st).
Definition bind {A B} (m : M A) (k : A → M B) : M B :=
  λ st, match m st with
        | (Continue a, st') => k a st'
        | (Return r, st') => (Return r, st')
        end.
Definition lift {A} (o : outcome A) : M A := λ st, (o, st).
Definition emit (e : event) : M unit :=
  λ st, (Continue tt, State (fs st) (separators st) (trace st ++ [e])).
Definition get_fs : M files := λ st, (Continue (fs st), st).
Definition set_fs (f : files) : M unit :=
  λ st, (Continue tt, State f (separators st) (trace st)).

Notation "'let*' x ':=' m 'in' k" := (bind m (λ x, k))
  (at level 10, x name, m at level 100, k at level 200, only parsing).
Notation "'let*' ' p ':=' m 'in' k" := (bind m (λ x, match x with p => k end))
  (at level 10, p strict pattern, m at level 100, k at level 200, only parsing).

(** ** Mixing (ffmpeg_mix) *)

Definition missing_or_empty (f : files) (p : string) : bool :=
  match f !! p with
  | None => true
  | Some sz => sz =? 0
  end.

Definition ffmpeg_args (inputs : list string) (output : string) : list string :=
  let n := length inputs in
  let args := ["ffmpeg"; "-y"] ++ concat ((λ p, ["-i"; p]) <$> inputs) in
  let filtergraph :=
    Py.join "" ((λ i, "[" +:+ Py.str_of_nat i +:+ ":a]") <$> seq 0 n)
    +:+ "amix=inputs=" +:+ Py.str_of_nat n +:+ ":normalize=0[a]" in
  args ++ ["-filter_complex"; filtergraph; "-map"; "[a]"; output].

(** [ffmpeg_mix]: the returned text and the state after the call. *)
Definition ffmpeg_mix (w : world) (inputs : list string) (output : string)
  (st : state) : string * state :=
  if Nat.eqb (length inputs) 0 then ("No stems to mix.", st)
  else
    let args := ffmpeg_args inputs output in
    let '(res, f') := subprocess_run w args (fs st) in
    let st' := State f' (separators st) (trace st ++ [EvRun args]) in
    match res with
    | Completed => ("", st')
    | CalledProcessError stderr => (stderr, st')
    end.

(** ** The view (process) *)

Definition truthy_flag (v : option string) : bool :=
  bool_decide (v ∈ [Some "1"; Some "true"; Some "on"]).

(** The local variables of [process] that are read after the request is
    validated and the preset chosen (lines 107-143); [karaoke_fast] is not
    read again. *)
Record validated := Validated {
  v_size : N;
  v_filename : string;
  v_is_multi : bool;
  v_removals_multi : list string;
  v_instrument : string;
  v_action : string;
  v_preset : string
}.

(** Lines 107-143: nothing here touches the state. *)
Definition validate (w : world) (req : request) : outcome validated :=
  match audio_file req with
  | Some (Upload (Some (String c0 r0)) size) =>
    let filename := secure_filename w (String c0 r0) in
    let ext := Py.lower (snd (Py.splitext filename)) in
    if negb (bool_decide (ext ∈ ALLOWED)) then
      Return (Text ("Unsupported file type: " +:+ ext) 400)
    else
    let is_multi := truthy_flag (form_multi req) in
    let removals_multi :=
      (λ x, normalize_instrument_name (Some x)) <$> form_remove_multi req in
    let instrument :=
      normalize_instrument_name (Some (default "drums" (form_instrument req))) in
    let action := Py.lower (Py.strip (Py.or_else (form_action req) "remove")) in
    let karaoke_fast := truthy_flag (form_karaoke req) in
    if negb (bool_decide (action ∈ ["remove"; "solo"])) then
      Return (Text "Invalid action" 400)
    else if is_multi then
      match removals_multi with
      | [] =>
        Return (Text "Choose at least one instrument to remove in multi-removal mode." 400)
      | _ =>
        Continue (Validated size filename is_multi removals_multi instrument
                    "remove" (pick_preset_multi removals_multi))
      end
    else
      let preset := pick_preset_single (Some instrument) karaoke_fast in
      if bool_decide (preset = "2stems")
         && negb (bool_decide (instrument ∈ ["vocals"; "accompaniment"])) then
        Return (Text "Fast Karaoke Mode (2-stems) only supports 'vocals' or 'accompaniment'." 400)
      else
        Continue (Validated size filename is_multi removals_multi instrument
                    action preset)
  | _ => Return (Text "No file uploaded" 400)
  end.

(** [stems_paths]: the stems of the preset under the output directory. *)
Definition stems_paths_of (out_dir : string) (stems_files : list (string * string))
  : list (string * string) :=
  (λ '(name, wavname), (name, path_join out_dir wavname)) <$> stems_files.

(** [[p.name for p in out_dir.glob('*.wav')]]: the names of the files of
    the directory that end in .wav (in the order the map lists them). *)
Fixpoint strip_prefix (pre s : string) : option string :=
  match pre, s with
  | EmptyString, _ => Some s
  | String a pre', String b s' => if Ascii.eqb a b then strip_prefix pre' s' else None
  | _, _ => None
  end.

Fixpoint has_char (c : ascii) (s : string) : bool :=
  match s with
  | EmptyString => false
  | String a r => Ascii.eqb a c || has_char c r
  end.

Definition endswith (suf s : string) : bool :=
  bool_decide (is_Some (strip_prefix (String.rev suf) (String.rev s))).

Definition glob_wav_names (out_dir : string) (f : files) : list string :=
  omap (λ p, match strip_prefix (out_dir +:+ "/") p with
             | Some n => if negb (has_char "/" n) && endswith ".wav" n
                         then Some n else None
             | None => None
             end) (elements (dom f)).

(** [get_separator]: a separator is built on the first use of a preset. *)
Definition get_separator (preset : string) : M unit :=
  λ st, if bool_decide (preset ∈ separators st) then (Continue tt, st)
        else (Continue tt,
              State (fs st) ({[preset]} ∪ separators st)
                    (trace st ++ [EvNewSeparator preset])).

(** Lines 157-177: separate if a stem is missing or empty, drop the
    upload, and check the stems again. *)
Definition ensure_stems (w : world) (preset in_path out_dir : string)
  (stems_paths : list (string * string)) : M unit :=
  let* f0 := get_fs in
  let need_separate := existsb (λ '(_, p), missing_or_empty f0 p) stems_paths in
  let* _ :=
    (if need_separate then
       let* _ := get_separator preset in
       let* _ := emit (EvSeparate preset in_path OUTPUT_ROOT) in
       let '(exc, f1) := separate_to_file w preset in_path OUTPUT_ROOT f0 in
       let* _ := set_fs f1 in
       match exc with
       | Some e => exit (Text ("Spleeter failed (" +:+ preset +:+ "): " +:+ e) 500)
       | None => ret tt
       end
     else ret tt) in
  let* f2 := get_fs in
  let* _ := emit (EvUnlink in_path) in
  let* _ := (if unlink_raises w in_path f2 then ret tt
             else set_fs (delete in_path f2)) in
  let* f3 := get_fs in
  let missing :=
    fst <$> filter (λ '(_, p), missing_or_empty f3 p = true) stems_paths in
  match missing with
  | [] => ret tt
  | _ =>
    let present := glob_wav_names out_dir f3 in
    exit (Text ("Unexpected output for " +:+ preset
                +:+ ". Missing/empty stems: " +:+ repr_list w missing
                +:+ ". Present: " +:+ repr_list w present) 500)
  end.

Fixpoint dict_get (k : string) (d : list (string * string)) : option string :=
  match d with
  | [] => None
  | (k', x) :: r => if bool_decide (k' = k) then Some x else dict_get k r
  end.

(** Lines 180-199: the paths to keep and the label. *)
Definition decide_keep (v : validated) (stems_paths : list (string * string))
  : outcome (list string * string) :=
  if v_is_multi v then
    let targets : gset string := list_to_set (v_removals_multi v) in
    let keep_paths :=
      snd <$> filter (λ '(stem, _), stem ∉ targets) stems_paths in
    let label := "no_" +:+ Py.join "-" (Py.sorted targets) in
    Continue (keep_paths, label)
  else
    let target_stem := v_instrument v in
    if bool_decide (v_preset v = "2stems")
       && negb (bool_decide (target_stem ∈ ["vocals"; "accompaniment"])) then
      Return (Text ("'" +:+ target_stem +:+ "' not available in 2-stems.") 400)
    else if negb (bool_decide (target_stem ∈ (fst <$> stems_paths))) then
      Return (Text ("Target stem '" +:+ target_stem +:+ "' not present in "
                    +:+ v_preset v +:+ ".") 400)
    else if bool_decide (v_action v = "remove") then
      Continue (snd <$> filter (λ '(stem, _), stem ≠ target_stem) stems_paths,
                "no_" +:+ target_stem)
    else
      match dict_get target_stem stems_paths with
      | Some p => Continue ([p], "solo_" +:+ target_stem)
      | None => Return (Unhandled "KeyError")
      end.

Definition pretty_preset (preset : string) : string :=
  default preset (dict_get preset [("2stems", "2"); ("4stems", "4"); ("5stems", "5")]).

Definition base_of (v : validated) : string := fst (Py.splitext (v_filename v)).
Definition in_path_of (v : validated) : string := path_join UPLOAD_DIR (v_filename v).
Definition out_dir_of (v : validated) : string := path_join OUTPUT_ROOT (base_of v).

(** Lines 145-177: save the upload, make the output directory, and make
    sure the stems of the preset are there.  Gives [stems_paths]. *)
Definition prepare (w : world) (v : validated) : M (list (string * string)) :=
  let in_path := in_path_of v in
  let* f0 := get_fs in
  let* _ := emit (EvSave in_path (v_size v)) in
  let* _ := set_fs (<[in_path := v_size v]> f0) in
  let out_dir := out_dir_of v in
  let* _ := emit (EvMkdir out_dir) in
  match expected_stems_for (v_preset v) with
  | None => exit (Unhandled "ValueError")
  | Some stems_files =>
    let stems_paths := stems_paths_of out_dir stems_files in
    let* _ := ensure_stems w (v_preset v) in_path out_dir stems_paths in
    ret stems_paths
  end.

Definition mix_name_of (v : validated) (label : string) : string :=
  base_of v +:+ "_" +:+ label +:+ ".wav".

(** Lines 180-228: decide what to keep, mix, and build the response. *)
Definition mix_and_respond (w : world) (v : validated)
  (stems_paths : list (string * string)) : M response :=
  let* '(keep_paths, label) := lift (decide_keep v stems_paths) in
  if Nat.eqb (length keep_paths) 0 then
    exit (Text "Nothing to mix. Try a different selection." 400)
  else
    let mix_name := mix_name_of v label in
    let mix_path := path_join (out_dir_of v) mix_name in
    let* err := (λ st, let '(e, st') := ffmpeg_mix w keep_paths mix_path st in
                       (Continue e, st')) in
    if negb (bool_decide (err = "")) then
      exit (Text ("FFmpeg mix failed: " +:+ err) 500)
    else
      let mix_url :=
        url_for_static w ("output/" +:+ base_of v +:+ "/" +:+ mix_name) in
      ret (Template "result.html"
             (ResultCtx mix_url (pretty_preset (v_preset v)) (v_is_multi v)
                (if v_is_multi v
                 then Py.sorted (list_to_set (v_removals_multi v)) else [])
                (v_instrument v) (v_action v)
                ("output/" +:+ base_of v) (v_filename v))).

(** Lines 145-228, after the request is read. *)
Definition run_validated (w : world) (v : validated) : M response :=
  let* stems_paths := prepare w v in
  mix_and_respond w v stems_paths.

(** The response of a finished run, however it ended. *)
Definition finish (x : outcome response * state) : response * state :=
  match x with
  | (Continue r, st') => (r, st')
  | (Return r, st') => (r, st')
  end.

(** [process]: the response and the state it leaves. *)
Definition process (w : world) (req : request) (st : state) : response * state :=
  finish (bind (lift (validate w req)) (run_validated w) st).

(** ** A concrete world and requests, to run the code on *)

(** An engine that writes every stem of the preset under [song], a mixer
    that writes its output file and succeeds, and an upload of song.mp3. *)
Definition demo_world : world := {|
  secure_filename := λ s, s;
  separate_to_file := λ preset in_path out_root f,
    (None,
     foldr (λ '(_, wav) acc, <[out_root +:+ "/song/" +:+ wav := 7]> acc) f
           (default [] (expected_stems_for preset)));
  unlink_raises := λ _ _, false;
  subprocess_run := λ args f, (Completed, <[default "" (last args) := 9]> f);
  repr_list := λ l, "[" +:+ Py.join ", " l +:+ "]";
  url_for_static := λ n, "/static/" +:+ n
|}.

(** The same world with a mixer that exits non-zero and prints nothing. *)
Definition silent_failure_world : world := {|
  secure_filename := secure_filename demo_world;
  separate_to_file := separate_to_file demo_world;
  unlink_raises := unlink_raises demo_world;
  subprocess_run := λ args f, (CalledProcessError "", f);
  repr_list := repr_list demo_world;
  url_for_static := url_for_static demo_world
|}.

Definition empty_state : state := State ∅ ∅ [].

Definition song : upload := Upload (Some "song.mp3") 1000.

Definition single_request (instrument action : string) (karaoke : option string)
  : request :=
  Request (Some song) None [] (Some instrument) (Some action) karaoke.

Definition multi_request (removals : list string) (action : option string)
  (karaoke : option string) : request :=
  Request (Some song) (Some "on") removals None action karaoke.

(** ** What the properties speak of *)

(** The normalised removal set of a list of names, as [pick_preset_multi]
    builds it. *)
Definition removal_set (removals : list string) : gset string :=
  list_to_set ((λ x, normalize_instrument_name (Some x)) <$> removals).

(** The preset a request selects, when validation lets it through. *)
Definition chosen_preset (w : world) (req : request) : option string :=
  match validate w req with
  | Continue v => Some (v_preset v)
  | Return _ => None
  end.

(** The action token as line 124 reads it. *)
Definition action_of (a : option string) : string :=
  Py.lower (Py.strip (Py.or_else a "remove")).

(** Strictly before, in the order of [sorted]. *)
Definition str_lt (a b : string) : Prop := String.le a b ∧ a ≠ b.

Definition stems_paths_for (v : validated) : list (string * string) :=
  stems_paths_of (out_dir_of v) (default [] (expected_stems_for (v_preset v))).

(** The keep list and the label lines 180-199 compute for a request that
    gets that far. *)
Definition planned (w : world) (req : request) : option (list string * string) :=
  match validate w req with
  | Continue v =>
    match decide_keep v (stems_paths_for v) with
    | Continue kl => Some kl
    | Return _ => None
    end
  | Return _ => None
  end.

(** The mixer runs of a trace, by their arguments. *)
Fixpoint mixer_calls (tr : list event) : list (list string) :=
  match tr with
  | [] => []
  | EvRun args :: r => args :: mixer_calls r
  | _ :: r => mixer_calls r
  end.

(** The uses of the separation engine in a trace: building a separator
    and separating. *)
Fixpoint engine_calls (tr : list event) : list event :=
  match tr with
  | [] => []
  | EvNewSeparator p :: r => EvNewSeparator p :: engine_calls r
  | EvSeparate p i o :: r => EvSeparate p i o :: engine_calls r
  | _ :: r => engine_calls r
  end.

(** The files [prepare] leaves when every stem was there already. *)
Definition after_hit (w : world) (v : validated) (f : files) : files :=
  let f1 := <[in_path_of v := v_size v]> f in
  if unlink_raises w (in_path_of v) f1 then f1 else delete (in_path_of v) f1.

(** The mixer changes no file but its output. *)
Definition mixer_writes_output_only (w : world) : Prop :=
  ∀ (inputs : list string) (output : string) (f : files) (p : string),
    p ≠ output →
    snd (subprocess_run w (ffmpeg_args inputs output) f) !! p = f !! p.

(** ** Further notions for the properties of the whole view *)

(** The presets whose separator a trace builds, in order. *)
Fixpoint new_separators (tr : list event) : list string :=
  match tr with
  | [] => []
  | EvNewSeparator p :: r => p :: new_separators r
  | _ :: r => new_separators r
  end.

(** The separations a trace runs: preset, input path, output root. *)
Fixpoint separations (tr : list event) : list (string * string * string) :=
  match tr with
  | [] => []
  | EvSeparate p i o :: r => (p, i, o) :: separations r
  | _ :: r => separations r
  end.

(** The [_separators] cache agrees with the history: every separator
    that was built is in the cache, and none was built twice. *)
Definition cache_consistent (st : state) : Prop :=
  NoDup (new_separators (trace st))
  ∧ ∀ p, p ∈ new_separators (trace st) → p ∈ separators st.

(** Removing a file never fails. *)
Definition unlink_never_raises (w : world) : Prop :=
  ∀ (p : string) (f : files), unlink_raises w p f = false.

(** The state once the upload is saved and the output directory made
    (lines 146-151). *)
Definition saved (v : validated) (st : state) : state :=
  State (<[in_path_of v := v_size v]> (fs st)) (separators st)
        (trace st ++ [EvSave (in_path_of v) (v_size v); EvMkdir (out_dir_of v)]).

(** The mix path of a label (lines 205-206). *)
Definition mix_path_of (v : validated) (label : string) : string :=
  path_join (out_dir_of v) (mix_name_of v label).

(** The extension line 113 computes for an upload name. *)
Definition ext_of (w : world) (name : string) : string :=
  Py.lower (snd (Py.splitext (secure_filename w name))).

(** [need_separate] of line 158, for the stems of the request. *)
Definition need_separate (v : validated) (f : files) : bool :=
  existsb (λ '(_, p), missing_or_empty f p) (stems_paths_for v).

(** The names of the stems line 174 finds missing or empty. *)
Definition missing_stems (v : validated) (f : files) : list string :=
  fst <$> filter (λ '(_, p), missing_or_empty f p = true) (stems_paths_for v).

(** The state after [get_separator]. *)
Definition with_separator (preset : string) (st : state) : state :=
  snd (get_separator preset st).

(** The files once the upload is removed, or not when that fails. *)
Definition unlinked (w : world) (p : string) (f : files) : files :=
  if unlink_raises w p f then f else delete p f.

(** The page of a finished mix (lines 214-228). *)
Definition result_page (w : world) (v : validated) (label : string) : response :=
  Template "result.html"
    (ResultCtx
       (url_for_static w ("output/" +:+ base_of v +:+ "/" +:+ mix_name_of v label))
       (pretty_preset (v_preset v)) (v_is_multi v)
       (if v_is_multi v then Py.sorted (list_to_set (v_removals_multi v)) else [])
       (v_instrument v) (v_action v) ("output/" +:+ base_of v) (v_filename v)).

(** A world whose engine raises. *)
Definition failing_engine_world : world := {|
  secure_filename := secure_filename demo_world;
  separate_to_file := λ _ _ _ f, (Some "out of memory", f);
  unlink_raises := unlink_raises demo_world;
  subprocess_run := subprocess_run demo_world;
  repr_list := repr_list demo_world;
  url_for_static := url_for_static demo_world
|}.


(** A world whose mixer exits non-zero with a message. *)
Definition failing_mixer_world : world := {|
  secure_filename := secure_filename demo_world;
  separate_to_file := separate_to_file demo_world;
  unlink_raises := unlink_raises demo_world;
  subprocess_run := λ args f, (CalledProcessError "Invalid data found", f);
  repr_list := repr_list demo_world;
  url_for_static := url_for_static demo_world
|}.

(** ** The model on examples *)

Example splitext_ex :
  Py.splitext "a.b.mp3" = ("a.b", ".mp3") ∧ Py.splitext "..mp3" = ("..mp3", "")
  ∧ Py.splitext "song" = ("song", "") ∧ Py.splitext "x." = ("x", ".").
Proof. repeat split; reflexivity. Qed.

Example norm_ex :
  normalize_instrument_name (Some " VOCAL ") = "vocals"
  ∧ Py.sorted {[ "drums"; "bass" ]} = ["bass"; "drums"]
  ∧ pick_preset_multi ["Piano"; "drums"] = "5stems"
  ∧ Py.str_of_nat 12 = "12".
Proof. repeat split; vm_compute; reflexivity. Qed.

(** ** Instrument normalisation *)

Section normalisation.

Lemma isspace_lower_char c : Py.isspace (Py.lower_char c) = Py.isspace c.
Proof. destruct c as [[] [] [] [] [] [] [] []]; reflexivity. Qed.

Lemma lower_char_idemp c : Py.lower_char (Py.lower_char c) = Py.lower_char c.
Proof. destruct c as [[] [] [] [] [] [] [] []]; reflexivity. Qed.

Lemma lower_idemp s : Py.lower (Py.lower s) = Py.lower s.
Proof. induction s as [|c s IH]; simpl; [done|]. by rewrite lower_char_idemp, IH. Qed.

Lemma lstrip_lower s : Py.lstrip (Py.lower s) = Py.lower (Py.lstrip s).
Proof.
  induction s as [|c s IH]; simpl; [done|].
  rewrite isspace_lower_char. by destruct (Py.isspace c).
Qed.

Lemma rstrip_lower s : Py.rstrip (Py.lower s) = Py.lower (Py.rstrip s).
Proof.
  induction s as [|c s IH]; simpl; [done|].
  rewrite IH, isspace_lower_char.
  destruct (Py.rstrip s); simpl; [by destruct (Py.isspace c)|done].
Qed.

Lemma strip_lower s : Py.strip (Py.lower s) = Py.lower (Py.strip s).
Proof. unfold Py.strip. by rewrite lstrip_lower, rstrip_lower. Qed.

Lemma rstrip_idemp s : Py.rstrip (Py.rstrip s) = Py.rstrip s.
Proof.
  induction s as [|c s IH]; simpl; [done|].
  destruct (Py.rstrip s) as [|d r] eqn:E.
  - destruct (Py.isspace c) eqn:Ec; simpl; [done|]. by rewrite Ec.
  - simpl in *. by rewrite IH.
Qed.

(** What [lstrip] leaves does not start with white space. *)
Lemma lstrip_head s c r : Py.lstrip s = String c r → Py.isspace c = false.
Proof.
  induction s as [|d s IH]; simpl; [done|].
  destruct (Py.isspace d) eqn:Ed; [done|]. by intros [= <- <-].
Qed.

Lemma lstrip_rstrip_fixed s :
  Py.lstrip s = s → Py.lstrip (Py.rstrip s) = Py.rstrip s.
Proof.
  destruct s as [|c r]; [done|]. intros H.
  pose proof (lstrip_head _ _ _ H) as Hc. simpl.
  destruct (Py.rstrip r); rewrite ?Hc; simpl; by rewrite Hc.
Qed.

Lemma lstrip_idemp s : Py.lstrip (Py.lstrip s) = Py.lstrip s.
Proof.
  induction s as [|c s IH]; simpl; [done|].
  destruct (Py.isspace c) eqn:Ec; [done|]. simpl. by rewrite Ec.
Qed.

Lemma strip_idemp s : Py.strip (Py.strip s) = Py.strip s.
Proof.
  unfold Py.strip.
  rewrite (lstrip_rstrip_fixed (Py.lstrip s)) by apply lstrip_idemp.
  apply rstrip_idemp.
Qed.

Lemma or_else_Some_empty s : Py.or_else (Some s) "" = s.
Proof. by destruct s. Qed.

(** The text before the synonym step is a fixed point of strip-then-lower. *)
Lemma lower_strip_fixed s :
  Py.lower (Py.strip (Py.lower (Py.strip s))) = Py.lower (Py.strip s).
Proof. by rewrite strip_lower, strip_idemp, lower_idemp. Qed.

Lemma normalize_instrument_name_idemp x :
  normalize_instrument_name (Some (normalize_instrument_name x))
  = normalize_instrument_name x.
Proof.
  unfold normalize_instrument_name at 2 3.
  set (n := Py.lower (Py.strip (Py.or_else x ""))).
  destruct (bool_decide (n ∈ ["voice"; "vocal"])) eqn:E; [done|].
  unfold normalize_instrument_name. rewrite or_else_Some_empty.
  subst n. rewrite lower_strip_fixed. by rewrite E.
Qed.

End normalisation.

(** C7.  [normalize_instrument_name] is a total function of an optional
    text (it has a value at [None], at the empty text and at every other
    text) and it is idempotent: normalising a normalised name changes
    nothing.  "Voice", "VOCAL" and " vocal " all normalise to "vocals". *)
Theorem normalize_total_idempotent :
  (∀ x : option string, ∃ n, normalize_instrument_name x = n)
  ∧ (∀ x : option string,
       normalize_instrument_name (Some (normalize_instrument_name x))
       = normalize_instrument_name x)
  ∧ normalize_instrument_name None = ""
  ∧ normalize_instrument_name (Some "") = ""
  ∧ normalize_instrument_name (Some "Voice") = "vocals"
  ∧ normalize_instrument_name (Some "VOCAL") = "vocals"
  ∧ normalize_instrument_name (Some " vocal ") = "vocals".
Proof.
  split; [intros x; by eexists|].
  split; [apply normalize_instrument_name_idemp|].
  repeat split; reflexivity.
Qed.

(** ** Preset selection *)

(** C1.  In single mode the selector gives 5stems whenever the normalised
    instrument is "piano" (whatever the karaoke flag), 2stems when the flag
    is set and the normalised instrument is "vocals", and 4stems in every
    other case. *)
Theorem pick_preset_single_cases :
  ∀ (instrument : option string) (karaoke_fast : bool),
    let t := normalize_instrument_name instrument in
    (t = "piano" → pick_preset_single instrument karaoke_fast = "5stems")
    ∧ (karaoke_fast = true → t = "vocals" →
       pick_preset_single instrument karaoke_fast = "2stems")
    ∧ (t ≠ "piano" → ¬ (karaoke_fast = true ∧ t = "vocals") →
       pick_preset_single instrument karaoke_fast = "4stems")
    ∧ pick_preset_single (Some "piano") true = "5stems"
    ∧ pick_preset_single (Some "vocals") true = "2stems"
    ∧ pick_preset_single (Some "drums") false = "4stems".
Proof.
  intros instrument karaoke_fast t. unfold pick_preset_single. fold t.
  split; [intros ->; reflexivity|].
  split; [intros -> ->; reflexivity|].
  split; [|repeat split; reflexivity].
  intros Hp Hv. rewrite bool_decide_eq_false_2 by done.
  destruct karaoke_fast; [|done]. simpl.
  rewrite bool_decide_eq_false_2; [done|]. intros ?. by apply Hv.
Qed.

Lemma pick_preset_single_cases_witness :
  pick_preset_single (Some " Piano") true = "5stems"
  ∧ pick_preset_single (Some "Voice") true = "2stems"
  ∧ pick_preset_single (Some "bass") true = "4stems".
Proof.
  destruct (pick_preset_single_cases (Some " Piano") true) as (H1 & _).
  destruct (pick_preset_single_cases (Some "Voice") true) as (_ & H2 & _).
  destruct (pick_preset_single_cases (Some "bass") true) as (_ & _ & H3 & _).
  split; [|split].
  - apply H1. reflexivity.
  - apply H2; reflexivity.
  - apply H3.
    + vm_compute. discriminate.
    + vm_compute. intros [_ H]. discriminate H.
Defined.

(** C2.  In multi mode the selector gives 4stems when the normalised
    removal set is exactly {"vocals"}, 5stems when "piano" is in the set,
    4stems otherwise, and 2stems for no input. *)
Theorem pick_preset_multi_cases :
  ∀ removals : list string,
    (removal_set removals = {["vocals"]} → pick_preset_multi removals = "4stems")
    ∧ ("piano" ∈ removal_set removals → pick_preset_multi removals = "5stems")
    ∧ ("piano" ∉ removal_set removals → pick_preset_multi removals = "4stems")
    ∧ pick_preset_multi removals ≠ "2stems".
Proof.
  intros removals. unfold pick_preset_multi. fold (removal_set removals).
  split; [intros ->; by rewrite bool_decide_eq_true_2|].
  split.
  - intros Hp. rewrite bool_decide_eq_false_2.
    + by rewrite bool_decide_eq_true_2.
    + intros E. rewrite E in Hp. apply elem_of_singleton in Hp. discriminate Hp.
  - split.
    + intros Hp. rewrite (bool_decide_eq_false_2 (_ ∈ _)) by done.
      by destruct (bool_decide _).
    + by repeat destruct (bool_decide _).
Qed.

Lemma pick_preset_multi_cases_witness :
  pick_preset_multi [" Vocal"; "voice"] = "4stems"
  ∧ pick_preset_multi ["Piano"; "drums"] = "5stems"
  ∧ pick_preset_multi ["drums"; "bass"] = "4stems".
Proof.
  destruct (pick_preset_multi_cases [" Vocal"; "voice"]) as (H1 & _).
  destruct (pick_preset_multi_cases ["Piano"; "drums"]) as (_ & H2 & _).
  destruct (pick_preset_multi_cases ["drums"; "bass"]) as (_ & _ & H3 & _).
  split; [|split].
  - apply H1. refine (bool_decide_unpack _ _); vm_compute; exact I.
  - apply H2. refine (bool_decide_unpack _ _); vm_compute; exact I.
  - apply H3. refine (bool_decide_unpack _ _); vm_compute; exact I.
Defined.

(** ** The mixer call *)

Lemma length_nonzero {A} (l : list A) : l ≠ [] → Nat.eqb (length l) 0 = false.
Proof. by destruct l. Qed.

(** As C9 states it, the invoker would return the empty text only when
    the mixer succeeds.  A mixer that exits non-zero with nothing on its
    standard error makes [ffmpeg_mix] return the empty text too. *)
Lemma ffmpeg_mix_empty_text_on_failure :
  fst (subprocess_run silent_failure_world
         (ffmpeg_args ["a.wav"] "out.wav") (fs empty_state))
  = CalledProcessError ""
  ∧ fst (ffmpeg_mix silent_failure_world ["a.wav"] "out.wav" empty_state) = "".
Proof. split; reflexivity. Qed.

(** C9 (amended).  For no inputs [ffmpeg_mix] returns "No stems to mix."
    and leaves the state as it is: the mixer is not run.  Otherwise the
    mixer is run once, with the arguments built from the inputs; the
    result is the empty text when it exits with status 0 and the captured
    standard error, as it is, when it does not. *)
Theorem ffmpeg_mix_cases :
  ∀ (w : world) (inputs : list string) (output : string) (st : state),
    (inputs = [] → ffmpeg_mix w inputs output st = ("No stems to mix.", st))
    ∧ (inputs ≠ [] →
       ∃ res f',
         subprocess_run w (ffmpeg_args inputs output) (fs st) = (res, f')
         ∧ snd (ffmpeg_mix w inputs output st)
           = State f' (separators st)
                   (trace st ++ [EvRun (ffmpeg_args inputs output)])
         ∧ fst (ffmpeg_mix w inputs output st)
           = match res with
             | Completed => ""
             | CalledProcessError stderr => stderr
             end).
Proof.
  intros w inputs output st. split.
  - intros ->. reflexivity.
  - intros Hne. unfold ffmpeg_mix. rewrite (length_nonzero _ Hne).
    destruct (subprocess_run w (ffmpeg_args inputs output) (fs st)) as [res f'].
    exists res, f'. by destruct res.
Qed.

Lemma ffmpeg_mix_cases_witness :
  ffmpeg_mix demo_world [] "out.wav" empty_state = ("No stems to mix.", empty_state)
  ∧ fst (ffmpeg_mix demo_world ["a.wav"; "b.wav"] "out.wav" empty_state) = ""
  ∧ trace (snd (ffmpeg_mix demo_world ["a.wav"; "b.wav"] "out.wav" empty_state))
    = [EvRun ["ffmpeg"; "-y"; "-i"; "a.wav"; "-i"; "b.wav"; "-filter_complex";
              "[0:a][1:a]amix=inputs=2:normalize=0[a]"; "-map"; "[a]"; "out.wav"]].
Proof.
  destruct (ffmpeg_mix_cases demo_world [] "out.wav" empty_state) as [H1 _].
  destruct (ffmpeg_mix_cases demo_world ["a.wav"; "b.wav"] "out.wav" empty_state)
    as [_ H2].
  split; [apply H1; reflexivity|].
  destruct H2 as (res & f' & Hrun & Hst & Hres); [discriminate|].
  injection Hrun as <- <-.
  split; [exact Hres|]. rewrite Hst. reflexivity.
Defined.

(** ** Validation of the upload *)

Lemma process_validate (w : world) (req : request) (st : state) :
  process w req st
  = match validate w req with
    | Continue v => finish (run_validated w v st)
    | Return r => (r, st)
    end.
Proof. unfold process, bind, lift. by destruct (validate w req). Qed.

(** C8.  When the extension of the uploaded file (of its secured name, in
    lower case) is not one of .mp3, .wav, .flac, .m4a, .ogg, the response
    is the 400 "Unsupported file type" and the state is the one the
    request started in: no file is written, no directory made, and neither
    the engine nor the mixer is called. *)
Theorem unsupported_extension_rejected :
  ∀ (w : world) (req : request) (st : state) (name : string) (size : N),
    audio_file req = Some (Upload (Some name) size) →
    name ≠ "" →
    Py.lower (snd (Py.splitext (secure_filename w name))) ∉ ALLOWED →
    process w req st
    = (Text ("Unsupported file type: "
             +:+ Py.lower (snd (Py.splitext (secure_filename w name)))) 400, st).
Proof.
  intros w req st name size Hf Hname Hext.
  rewrite process_validate. unfold validate. rewrite Hf.
  destruct name as [|c r]; [done|].
  by rewrite bool_decide_eq_false_2.
Qed.

Lemma unsupported_extension_rejected_witness :
  process demo_world
    (Request (Some (Upload (Some "Track.XYZ") 5)) None [] None None None)
    empty_state
  = (Text "Unsupported file type: .xyz" 400, empty_state).
Proof.
  apply (unsupported_extension_rejected demo_world _ empty_state "Track.XYZ" 5).
  - reflexivity.
  - discriminate.
  - refine (bool_decide_unpack _ _); vm_compute; exact I.
Defined.

(** ** The karaoke flag and the action token *)

Lemma pick_preset_single_flag (instrument : option string) (k1 k2 : bool) :
  normalize_instrument_name instrument ≠ "vocals" →
  pick_preset_single instrument k1 = pick_preset_single instrument k2.
Proof.
  intros Hv. unfold pick_preset_single.
  rewrite (bool_decide_eq_false_2 (_ = "vocals")) by done.
  by rewrite !andb_false_r.
Qed.

(** As C3 states it, a single-mode request with action "solo" would get
    the same preset and response with and without the karaoke flag.  Solo
    of vocals gets 2stems with the flag and 4stems without it. *)
Lemma karaoke_flag_changes_solo_vocals :
  action_of (Some "solo") = "solo"
  ∧ chosen_preset demo_world (single_request "vocals" "solo" (Some "on"))
    = Some "2stems"
  ∧ chosen_preset demo_world (single_request "vocals" "solo" None)
    = Some "4stems"
  ∧ fst (process demo_world (single_request "vocals" "solo" (Some "on")) empty_state)
    ≠ fst (process demo_world (single_request "vocals" "solo" None) empty_state).
Proof.
  split; [reflexivity|]. split; [reflexivity|]. split; [reflexivity|].
  vm_compute. discriminate.
Qed.

(** C3 (amended).  For a single-mode request whose normalised target is
    not "vocals", the validated request (with its preset), the response
    and the final state are the same whatever the karaoke field holds. *)
Theorem karaoke_flag_irrelevant_unless_vocals :
  ∀ (w : world) (f : option upload) (m : option string) (rm : list string)
    (i a k1 k2 : option string) (st : state),
    truthy_flag m = false →
    normalize_instrument_name (Some (default "drums" i)) ≠ "vocals" →
    validate w (Request f m rm i a k1) = validate w (Request f m rm i a k2)
    ∧ chosen_preset w (Request f m rm i a k1) = chosen_preset w (Request f m rm i a k2)
    ∧ process w (Request f m rm i a k1) st = process w (Request f m rm i a k2) st.
Proof.
  intros w f m rm i a k1 k2 st Hm Hv.
  assert (validate w (Request f m rm i a k1) = validate w (Request f m rm i a k2))
    as Hval.
  { unfold validate. simpl. rewrite Hm.
    rewrite (pick_preset_single_flag _ (truthy_flag k1) (truthy_flag k2)); [done|].
    by rewrite normalize_instrument_name_idemp. }
  split; [exact Hval|]. split.
  - unfold chosen_preset. by rewrite Hval.
  - rewrite !process_validate. by rewrite Hval.
Qed.

Lemma karaoke_flag_irrelevant_unless_vocals_witness :
  process demo_world (single_request "Drums" "solo" (Some "on")) empty_state
  = process demo_world (single_request "Drums" "solo" None) empty_state.
Proof.
  apply (karaoke_flag_irrelevant_unless_vocals demo_world (Some song) None []
           (Some "Drums") (Some "solo") (Some "on") None empty_state).
  - reflexivity.
  - vm_compute. discriminate.
Defined.

(** As C10 states it, two multi-mode requests that differ only in the
    action token would get the same response.  The token is checked before
    the mode is looked at, so an unknown token is refused in multi mode
    too. *)
Lemma multi_mode_unknown_action_refused :
  fst (process demo_world (multi_request ["drums"] (Some "bogus") None) empty_state)
  = Text "Invalid action" 400
  ∧ fst (process demo_world (multi_request ["drums"] (Some "remove") None) empty_state)
    ≠ Text "Invalid action" 400.
Proof. split; [reflexivity|]. vm_compute. discriminate. Qed.

(** C10 (amended).  Two multi-mode requests that differ only in the
    action and karaoke fields, both actions being "remove" or "solo" as
    line 124 reads them, validate to the same request (preset, removal
    list, action "remove") and get the same response and final state. *)
Theorem multi_mode_ignores_action_and_karaoke :
  ∀ (w : world) (f : option upload) (m : option string) (rm : list string)
    (i a1 a2 k1 k2 : option string) (st : state),
    truthy_flag m = true →
    action_of a1 ∈ ["remove"; "solo"] →
    action_of a2 ∈ ["remove"; "solo"] →
    validate w (Request f m rm i a1 k1) = validate w (Request f m rm i a2 k2)
    ∧ process w (Request f m rm i a1 k1) st = process w (Request f m rm i a2 k2) st.
Proof.
  intros w f m rm i a1 a2 k1 k2 st Hm Ha1 Ha2.
  assert (validate w (Request f m rm i a1 k1) = validate w (Request f m rm i a2 k2))
    as Hval.
  { unfold validate. simpl. rewrite Hm. fold (action_of a1) (action_of a2).
    by rewrite !(bool_decide_eq_true_2 (action_of _ ∈ _)). }
  split; [exact Hval|]. rewrite !process_validate. by rewrite Hval.
Qed.

Lemma multi_mode_ignores_action_and_karaoke_witness :
  process demo_world (multi_request ["drums"; "bass"] (Some " SOLO ") (Some "on"))
    empty_state
  = process demo_world (multi_request ["drums"; "bass"] None None) empty_state.
Proof.
  apply (multi_mode_ignores_action_and_karaoke demo_world (Some song) (Some "on")
           ["drums"; "bass"] None (Some " SOLO ") None (Some "on") None empty_state).
  - reflexivity.
  - refine (bool_decide_unpack _ _); vm_compute; exact I.
  - refine (bool_decide_unpack _ _); vm_compute; exact I.
Defined.

(** ** What validation fixes *)

Lemma validate_multi (w : world) (req : request) (v : validated) :
  validate w req = Continue v →
  v_is_multi v = true →
  v_removals_multi v
  = (λ x, normalize_instrument_name (Some x)) <$> form_remove_multi req
  ∧ v_removals_multi v ≠ []
  ∧ v_action v = "remove"
  ∧ v_preset v = pick_preset_multi (v_removals_multi v).
Proof.
  unfold validate. intros Hv Hm.
  repeat case_match; simplify_eq/=; done.
Qed.

Lemma validate_single (w : world) (req : request) (v : validated) :
  validate w req = Continue v →
  v_is_multi v = false →
  v_instrument v
  = normalize_instrument_name (Some (default "drums" (form_instrument req)))
  ∧ v_action v = action_of (form_action req)
  ∧ v_action v ∈ ["remove"; "solo"]
  ∧ v_preset v
    = pick_preset_single (Some (v_instrument v)) (truthy_flag (form_karaoke req)).
Proof.
  unfold validate. intros Hv Hm.
  repeat case_match; simplify_eq/=; try done.
  repeat split; try done.
  match goal with H : negb (bool_decide _) = false |- _ =>
    apply negb_false_iff, bool_decide_eq_true in H; exact H end.
Qed.

Lemma pick_preset_single_known i k :
  pick_preset_single i k ∈ ["2stems"; "4stems"; "5stems"].
Proof. unfold pick_preset_single. repeat case_match; set_solver. Qed.

Lemma pick_preset_multi_known l : pick_preset_multi l ∈ ["4stems"; "5stems"].
Proof. unfold pick_preset_multi. repeat case_match; set_solver. Qed.

(** The catalogue is never asked for a preset it does not know. *)
Lemma validate_preset_known (w : world) (req : request) (v : validated) :
  validate w req = Continue v → is_Some (expected_stems_for (v_preset v)).
Proof.
  intros Hv. destruct (v_is_multi v) eqn:Hm.
  - destruct (validate_multi _ _ _ Hv Hm) as (_ & _ & _ & ->).
    pose proof (pick_preset_multi_known (v_removals_multi v)) as H.
    set_unfold in H. destruct H as [-> | [-> | []]]; by eexists.
  - destruct (validate_single _ _ _ Hv Hm) as (_ & _ & _ & ->).
    pose proof (pick_preset_single_known (Some (v_instrument v))
                  (truthy_flag (form_karaoke req))) as H.
    set_unfold in H. destruct H as [-> | [-> | [-> | []]]]; by eexists.
Qed.

(** ** The label of a multi-removal *)

Section sorting.

Lemma strict_of_nodup {A} (R : relation A) (l : list A) :
  StronglySorted R l → NoDup l → StronglySorted (λ a b, R a b ∧ a ≠ b) l.
Proof.
  induction 1 as [|x l Hl IH Hx]; intros Hnd; [constructor|].
  apply NoDup_cons in Hnd as [Hnotin Hnd].
  constructor; [by apply IH|].
  rewrite Forall_forall in Hx |- *. intros y Hy.
  split; [by apply Hx|]. intros ->. by apply Hnotin.
Qed.

Lemma sorted_perm (X : gset string) : Py.sorted X ≡ₚ elements X.
Proof. apply merge_sort_Permutation. Qed.

Lemma sorted_elem_of (X : gset string) (x : string) : x ∈ Py.sorted X ↔ x ∈ X.
Proof. rewrite sorted_perm. apply elem_of_elements. Qed.

Lemma sorted_strict (X : gset string) : StronglySorted str_lt (Py.sorted X).
Proof.
  apply strict_of_nodup.
  - apply StronglySorted_merge_sort; apply _.
  - rewrite sorted_perm. apply NoDup_elements.
Qed.

End sorting.

Lemma list_to_set_removals (req : request) (v : validated) (w : world) :
  validate w req = Continue v → v_is_multi v = true →
  list_to_set (v_removals_multi v) = removal_set (form_remove_multi req).
Proof.
  intros Hv Hm. destruct (validate_multi _ _ _ Hv Hm) as (-> & _). done.
Qed.

Lemma planned_multi (w : world) (req : request) (v : validated) :
  validate w req = Continue v → v_is_multi v = true →
  planned w req
  = Some (snd <$> filter (λ '(stem, _), stem ∉ removal_set (form_remove_multi req))
                    (stems_paths_for v),
          "no_" +:+ Py.join "-" (Py.sorted (removal_set (form_remove_multi req)))).
Proof.
  intros Hv Hm. unfold planned, decide_keep. rewrite Hv, Hm.
  by rewrite (list_to_set_removals _ _ _ Hv Hm).
Qed.

(** C5.  For a multi-removal request that passes validation, the label is
    "no_" followed by the members of the normalised removal set, each
    once, in ascending order and joined by "-".  Two such requests whose
    removal fields denote the same set get the same label, whatever the
    order and the repetitions: bass, drums and drums, bass both give
    "no_bass-drums". *)
Theorem multi_label_sorted_members :
  (∀ (w : world) (req : request) (v : validated),
     validate w req = Continue v → v_is_multi v = true →
     ∃ keep members,
       planned w req = Some (keep, "no_" +:+ Py.join "-" members)
       ∧ StronglySorted str_lt members
       ∧ ∀ x, x ∈ members ↔ x ∈ removal_set (form_remove_multi req))
  ∧ (∀ (w : world) (req1 req2 : request) (v1 v2 : validated),
       validate w req1 = Continue v1 → v_is_multi v1 = true →
       validate w req2 = Continue v2 → v_is_multi v2 = true →
       (∀ x, x ∈ removal_set (form_remove_multi req1)
             ↔ x ∈ removal_set (form_remove_multi req2)) →
       ∃ label, snd <$> planned w req1 = Some label
                ∧ snd <$> planned w req2 = Some label)
  ∧ snd <$> planned demo_world (multi_request ["bass"; "drums"] None None)
    = Some "no_bass-drums"
  ∧ snd <$> planned demo_world (multi_request ["drums"; "bass"] None None)
    = Some "no_bass-drums"
  ∧ snd <$> planned demo_world (multi_request ["Drums"; "bass"; " drums"] None None)
    = Some "no_bass-drums".
Proof.
  split; [|split].
  - intros w req v Hv Hm. eexists _, _.
    split; [by apply planned_multi|].
    split; [apply sorted_strict|]. intros x. apply sorted_elem_of.
  - intros w req1 req2 v1 v2 Hv1 Hm1 Hv2 Hm2 Hset.
    rewrite (planned_multi _ _ _ Hv1 Hm1), (planned_multi _ _ _ Hv2 Hm2).
    assert (removal_set (form_remove_multi req1)
            = removal_set (form_remove_multi req2)) as ->
      by (apply set_eq; exact Hset).
    by eexists.
  - repeat split; vm_compute; reflexivity.
Qed.

Lemma multi_label_sorted_members_witness :
  ∃ label,
    snd <$> planned demo_world (multi_request ["other"; "bass"; "Bass"] None None)
    = Some label
    ∧ snd <$> planned demo_world (multi_request [" BASS"; "other"] None None)
      = Some label.
Proof.
  destruct multi_label_sorted_members as (_ & H & _).
  refine (H demo_world _ _ _ _ _ _ _ _ _).
  - vm_compute. reflexivity.
  - reflexivity.
  - vm_compute. reflexivity.
  - reflexivity.
  - intros x. refine (eq_ind _ (λ X, x ∈ X ↔ _) (reflexivity _) _ _).
    vm_compute. reflexivity.
Defined.

(** ** Calls to the engine and to the mixer *)

Lemma mixer_calls_app (a b : list event) :
  mixer_calls (a ++ b) = mixer_calls a ++ mixer_calls b.
Proof.
  induction a as [|e a IH]; simpl; [done|]. destruct e; simpl; by rewrite ?IH.
Qed.

Lemma engine_calls_app (a b : list event) :
  engine_calls (a ++ b) = engine_calls a ++ engine_calls b.
Proof.
  induction a as [|e a IH]; simpl; [done|]. destruct e; simpl; by rewrite ?IH.
Qed.

Section stems.

Context (w : world).

Lemma stems_all_present (f : files) (sp : list (string * string)) :
  (∀ p, p ∈ snd <$> sp → missing_or_empty f p = false) ↔
  existsb (λ '(_, p), missing_or_empty f p) sp = false.
Proof.
  induction sp as [|[n q] sp IH]; simpl.
  - split; [done|]. intros _ p Hp. by apply elem_of_nil in Hp.
  - rewrite orb_false_iff, <- IH. split.
    + intros H. split; [apply H; left|]. intros p Hp. apply H. by right.
    + intros [Hq H] p Hp. apply elem_of_cons in Hp as [->|Hp]; auto.
Qed.

Lemma stems_none_missing (f : files) (sp : list (string * string)) :
  (∀ p, p ∈ snd <$> sp → missing_or_empty f p = false) ↔
  filter (λ '(_, p), missing_or_empty f p = true) sp = [].
Proof.
  induction sp as [|[n q] sp IH]; simpl.
  - split; [done|]. intros _ p Hp. by apply elem_of_nil in Hp.
  - rewrite filter_cons. destruct (decide (missing_or_empty f q = true)) as [E|E].
    + split; [|done]. intros H. rewrite (H q) in E; [done|left].
    + rewrite <- IH. apply not_true_is_false in E. split.
      * intros H p Hp. apply H. by right.
      * intros H p Hp. apply elem_of_cons in Hp as [->|Hp]; auto.
Qed.

(** When no stem is missing at the start, the engine is left alone: the
    only call is the removal of the upload. *)
Lemma ensure_stems_no_need preset in_path out_dir sp st :
  existsb (λ '(_, p), missing_or_empty (fs st) p) sp = false →
  let f' := if unlink_raises w in_path (fs st) then fs st
            else delete in_path (fs st) in
  ∃ o, ensure_stems w preset in_path out_dir sp st
       = (o, State f' (separators st) (trace st ++ [EvUnlink in_path])).
Proof.
  intros Hneed f'. unfold ensure_stems, bind, get_fs, emit, set_fs, ret, exit.
  simpl. rewrite Hneed. simpl. subst f'.
  destruct (unlink_raises w in_path (fs st)); simpl;
    destruct (filter _ sp); simpl; by eexists.
Qed.

(** A run of [ensure_stems] that goes on leaves every stem in place. *)
Lemma ensure_stems_continue preset in_path out_dir sp st st' :
  ensure_stems w preset in_path out_dir sp st = (Continue tt, st') →
  ∀ p, p ∈ snd <$> sp → missing_or_empty (fs st') p = false.
Proof.
  unfold ensure_stems, bind, get_fs, emit, set_fs, ret, exit, get_separator.
  simpl. intros H. apply stems_none_missing. revert H.
  repeat case_match; simplify_eq/=; intros; simplify_eq/=;
    eauto using fmap_nil_inv.
Qed.

(** [ensure_stems] never runs the mixer. *)
Lemma ensure_stems_no_mixer preset in_path out_dir sp st o st' :
  ensure_stems w preset in_path out_dir sp st = (o, st') →
  mixer_calls (trace st') = mixer_calls (trace st).
Proof.
  unfold ensure_stems, bind, get_fs, emit, set_fs, ret, exit, get_separator.
  simpl. intros H.
  repeat case_match; simplify_eq/=;
    rewrite ?mixer_calls_app; simpl; by rewrite ?app_nil_r.
Qed.

End stems.

(** ** Paths *)

Section paths.

Lemma app_String (c : ascii) (s t : string) :
  String c s +:+ t = String c (s +:+ t).
Proof. reflexivity. Qed.

Lemma has_char_app (c : ascii) (a b : string) :
  has_char c (a +:+ b) = has_char c a || has_char c b.
Proof.
  induction a as [|x a IH]; [done|].
  rewrite app_String. simpl. by rewrite IH, orb_assoc.
Qed.

Lemma stems_paths_snd (out_dir : string) (stems_files : list (string * string)) :
  snd <$> stems_paths_of out_dir stems_files
  = path_join out_dir <$> (snd <$> stems_files).
Proof.
  unfold stems_paths_of. rewrite <- !list_fmap_compose.
  apply list_fmap_ext. by intros _ [n wav] _.
Qed.

(** The upload is never one of the stem files. *)
Lemma in_path_not_stem (v : validated) (stems_files : list (string * string)) :
  in_path_of v ∉ snd <$> stems_paths_of (out_dir_of v) stems_files.
Proof.
  rewrite stems_paths_snd. intros H.
  apply list_elem_of_fmap in H as (wav & H & _). discriminate H.
Qed.

Lemma stem_file_names (preset : string) (stems_files : list (string * string)) :
  expected_stems_for preset = Some stems_files →
  ∀ wav, wav ∈ snd <$> stems_files → has_char "_" wav = false.
Proof.
  unfold expected_stems_for. intros H wav Hwav.
  repeat case_match; simplify_eq/=;
    repeat (apply elem_of_cons in Hwav as [->|Hwav]; [reflexivity|]);
    by apply elem_of_nil in Hwav.
Qed.

(** Nor is the mix that a run writes. *)
Lemma mix_path_not_stem (v : validated) (label preset : string)
  (stems_files : list (string * string)) :
  expected_stems_for preset = Some stems_files →
  path_join (out_dir_of v) (mix_name_of v label)
  ∉ snd <$> stems_paths_of (out_dir_of v) stems_files.
Proof.
  intros Hfiles. rewrite stems_paths_snd. intros H.
  apply list_elem_of_fmap in H as (wav & H & Hwav).
  unfold path_join in H. do 2 apply (inj (String.app _)) in H.
  pose proof (stem_file_names _ _ Hfiles wav Hwav) as Hno.
  rewrite <- H in Hno. unfold mix_name_of in Hno.
  rewrite !has_char_app in Hno. simpl in Hno.
  by rewrite orb_true_r in Hno.
Qed.

End paths.

(** ** The stem cache *)

Section cache.

Context (w : world).

Lemma missing_or_empty_insert_ne (f : files) (p q : string) (n : N) :
  p ≠ q → missing_or_empty (<[q := n]> f) p = missing_or_empty f p.
Proof. intros H. unfold missing_or_empty. by rewrite lookup_insert_ne. Qed.

Lemma missing_or_empty_delete_ne (f : files) (p q : string) :
  p ≠ q → missing_or_empty (delete q f) p = missing_or_empty f p.
Proof. intros H. unfold missing_or_empty. by rewrite lookup_delete_ne. Qed.

Lemma ensure_stems_hit preset in_path out_dir sp st :
  (∀ p, p ∈ snd <$> sp → missing_or_empty (fs st) p = false) →
  in_path ∉ snd <$> sp →
  ensure_stems w preset in_path out_dir sp st
  = (Continue tt,
     State (if unlink_raises w in_path (fs st) then fs st
            else delete in_path (fs st))
           (separators st) (trace st ++ [EvUnlink in_path])).
Proof.
  intros Hall Hin.
  unfold ensure_stems, bind, get_fs, emit, set_fs, ret, exit. simpl.
  rewrite (proj1 (stems_all_present _ _) Hall). simpl.
  destruct (unlink_raises w in_path (fs st)); simpl.
  - by rewrite (proj1 (stems_none_missing _ _) Hall).
  - rewrite (proj1 (stems_none_missing (delete in_path (fs st)) sp)); [done|].
    intros p Hp. rewrite missing_or_empty_delete_ne; [by apply Hall|].
    by intros ->.
Qed.

Lemma after_hit_stem (v : validated) (f : files) (p : string) :
  p ∈ snd <$> stems_paths_for v → after_hit w v f !! p = f !! p.
Proof.
  intros Hp. assert (p ≠ in_path_of v) as Hne.
  { intros ->. by apply in_path_not_stem in Hp. }
  unfold after_hit. destruct (unlink_raises _ _ _).
  - by rewrite lookup_insert_ne.
  - by rewrite lookup_delete_ne, lookup_insert_ne.
Qed.

Lemma prepare_hit (v : validated) (st : state) :
  is_Some (expected_stems_for (v_preset v)) →
  (∀ p, p ∈ snd <$> stems_paths_for v → missing_or_empty (fs st) p = false) →
  prepare w v st
  = (Continue (stems_paths_for v),
     State (after_hit w v (fs st)) (separators st)
           (trace st ++ [EvSave (in_path_of v) (v_size v);
                         EvMkdir (out_dir_of v); EvUnlink (in_path_of v)])).
Proof.
  intros [stems_files Hfiles] Hall. unfold stems_paths_for in *.
  unfold prepare. rewrite Hfiles in *. simpl in Hall.
  unfold bind at 1 2 3 4 5. unfold get_fs, emit, set_fs, ret. simpl.
  rewrite ensure_stems_hit; simpl.
  - unfold after_hit. by rewrite <- !(assoc_L (++)).
  - intros p Hp. rewrite missing_or_empty_insert_ne; [by apply Hall|].
    intros ->. by apply in_path_not_stem in Hp.
  - apply in_path_not_stem.
Qed.

Lemma prepare_continue (v : validated) (st st' : state) sp :
  prepare w v st = (Continue sp, st') →
  sp = stems_paths_for v
  ∧ ∀ p, p ∈ snd <$> sp → missing_or_empty (fs st') p = false.
Proof.
  unfold prepare, stems_paths_for.
  destruct (expected_stems_for (v_preset v)) as [stems_files|]; [|done].
  unfold bind at 1 2 3 4 5. unfold get_fs, emit, set_fs, ret. simpl.
  destruct (ensure_stems _ _ _ _ _ _) as [[[]|r] st2] eqn:E; [|done].
  intros [= <- <-]. split; [done|]. by eapply ensure_stems_continue.
Qed.

Lemma prepare_no_mixer (v : validated) (st st' : state) o :
  prepare w v st = (o, st') → mixer_calls (trace st') = mixer_calls (trace st).
Proof.
  unfold prepare.
  destruct (expected_stems_for (v_preset v)) as [stems_files|].
  - unfold bind at 1 2 3 4 5. unfold get_fs, emit, set_fs, ret. simpl.
    destruct (ensure_stems _ _ _ _ _ _) as [[[]|r] st2] eqn:E;
      intros [= <- <-]; apply ensure_stems_no_mixer in E; rewrite E;
      simpl; rewrite !mixer_calls_app; simpl; by rewrite !app_nil_r.
  - unfold bind, get_fs, emit, set_fs, exit. simpl. intros [= <- <-]. simpl.
    rewrite !mixer_calls_app. simpl. by rewrite !app_nil_r.
Qed.

(** After the stems are there, the engine is not used any more. *)
Lemma mix_and_respond_engine (v : validated) sp (st st' : state) o :
  mix_and_respond w v sp st = (o, st') →
  engine_calls (trace st') = engine_calls (trace st)
  ∧ separators st' = separators st.
Proof.
  unfold mix_and_respond, bind, lift, ffmpeg_mix, ret, exit.
  intros H. repeat case_match; simplify_eq/=;
    rewrite ?engine_calls_app; simpl; by rewrite ?app_nil_r.
Qed.

Lemma run_validated_unfold (v : validated) (st : state) :
  run_validated w v st
  = match prepare w v st with
    | (Continue sp, st') => mix_and_respond w v sp st'
    | (Return r, st') => (Return r, st')
    end.
Proof. reflexivity. Qed.

End cache.

Lemma snd_finish (x : outcome response * state) : snd (finish x) = snd x.
Proof. by destruct x as [[r|r] st]. Qed.

Lemma prepare_return (w : world) (v : validated) (st st' : state) (r : response) :
  prepare w v st = (Return r, st') → ∀ name ctx, r ≠ Template name ctx.
Proof.
  unfold prepare, ensure_stems, bind, get_fs, emit, set_fs, ret, exit,
    get_separator. simpl. intros H name ctx.
  repeat case_match; simplify_eq/=; done.
Qed.

Lemma decide_keep_return (v : validated) sp (r : response) :
  decide_keep v sp = Return r → ∀ name ctx, r ≠ Template name ctx.
Proof.
  unfold decide_keep. intros H name ctx. repeat case_match; simplify_eq/=; done.
Qed.

(** A rendered result means the mixer ran, on the files [prepare] left
    and towards the mix path of the request. *)
Lemma mix_and_respond_template (w : world) (v : validated) sp (st st1 : state)
  (name : string) (ctx : result_ctx) :
  finish (mix_and_respond w v sp st) = (Template name ctx, st1) →
  ∃ keep label,
    fs st1 = snd (subprocess_run w
                    (ffmpeg_args keep (path_join (out_dir_of v) (mix_name_of v label)))
                    (fs st)).
Proof.
  unfold mix_and_respond, bind, lift, ffmpeg_mix, ret, exit, finish.
  intros H. repeat case_match; simplify_eq/=; try congruence.
  all: try (eexists _, _;
    match goal with E : subprocess_run _ _ _ = _ |- _ => by rewrite E end).
  by eapply decide_keep_return in H2.
Qed.

Lemma process_hit (w : world) (req : request) (v : validated) (st : state) :
  validate w req = Continue v →
  (∀ p, p ∈ snd <$> stems_paths_for v → missing_or_empty (fs st) p = false) →
  engine_calls (trace (snd (process w req st))) = engine_calls (trace st)
  ∧ separators (snd (process w req st)) = separators st.
Proof.
  intros Hv Hall. rewrite process_validate, Hv, snd_finish, run_validated_unfold.
  rewrite prepare_hit by eauto using validate_preset_known.
  destruct (mix_and_respond _ _ _ _) as [o st'] eqn:E.
  apply mix_and_respond_engine in E as [E1 E2]. simpl in *.
  rewrite E1, E2, engine_calls_app. simpl. by rewrite app_nil_r.
Qed.

(** C4.  When every stem file of the chosen preset exists and is not
    empty, the run goes on with those files as they are, and neither
    builds a separator nor separates.  The stem stage run again after it
    has succeeded does not use the engine; and after a run that ended in
    a rendered result, a run for the same file name and preset does not
    use it either, given a mixer that writes its output file only. *)
Theorem cache_hit_skips_engine :
  (∀ (w : world) (req : request) (v : validated) (st : state),
     validate w req = Continue v →
     (∀ p, p ∈ snd <$> stems_paths_for v → missing_or_empty (fs st) p = false) →
     (∃ st', prepare w v st = (Continue (stems_paths_for v), st')
             ∧ ∀ p, p ∈ snd <$> stems_paths_for v → fs st' !! p = fs st !! p)
     ∧ engine_calls (trace (snd (process w req st))) = engine_calls (trace st)
     ∧ separators (snd (process w req st)) = separators st)
  ∧ (∀ (w : world) (preset in_path in_path' out_dir : string)
       (sp : list (string * string)) (st st1 : state),
       ensure_stems w preset in_path out_dir sp st = (Continue tt, st1) →
       engine_calls (trace (snd (ensure_stems w preset in_path' out_dir sp st1)))
       = engine_calls (trace st1))
  ∧ (∀ (w : world) (req req' : request) (v v' : validated) (st st1 : state)
       (name : string) (ctx : result_ctx),
       mixer_writes_output_only w →
       validate w req = Continue v →
       process w req st = (Template name ctx, st1) →
       validate w req' = Continue v' →
       v_filename v' = v_filename v →
       v_preset v' = v_preset v →
       engine_calls (trace (snd (process w req' st1))) = engine_calls (trace st1)
       ∧ separators (snd (process w req' st1)) = separators st1).
Proof.
  split; [|split].
  - intros w req v st Hv Hall. split; [|by apply (process_hit w req v)].
    eexists. split; [apply prepare_hit; eauto using validate_preset_known|].
    intros p Hp. simpl. by apply after_hit_stem.
  - intros w preset in_path in_path' out_dir sp st st1 H.
    pose proof (ensure_stems_continue _ _ _ _ _ _ _ H) as Hall.
    apply stems_all_present in Hall.
    destruct (ensure_stems_no_need w preset in_path' out_dir sp st1 Hall) as [o ->].
    simpl. rewrite engine_calls_app. simpl. by rewrite app_nil_r.
  - intros w req req' v v' st st1 name ctx Hframe Hv Hrun Hv' Hname Hpreset.
    apply (process_hit _ _ _ _ Hv').
    assert (stems_paths_for v' = stems_paths_for v) as ->.
    { unfold stems_paths_for, out_dir_of, base_of. by rewrite Hname, Hpreset. }
    rewrite process_validate, Hv, run_validated_unfold in Hrun.
    destruct (prepare w v st) as [[sp|r] stp] eqn:Hp.
    + apply prepare_continue in Hp as [-> Hstems].
      apply mix_and_respond_template in Hrun as (keep & label & Hfs).
      intros p Hp. unfold missing_or_empty. rewrite Hfs, Hframe.
      * by apply Hstems.
      * intros ->. unfold stems_paths_for in Hp.
        destruct (validate_preset_known _ _ _ Hv) as [stems_files Hfiles].
        rewrite Hfiles in Hp. exact (mix_path_not_stem v label _ _ Hfiles Hp).
    + simpl in Hrun. injection Hrun as -> ->.
      by apply prepare_return with (name := name) (ctx := ctx) in Hp.
Qed.

(** The output path is the last argument of the mixer. *)
Lemma ffmpeg_args_last (inputs : list string) (output : string) :
  last (ffmpeg_args inputs output) = Some output.
Proof.
  unfold ffmpeg_args. cbv zeta.
  match goal with
  | |- last (?l ++ [?a; ?b; ?c; ?d; ?e]) = _ =>
      change (l ++ [a; b; c; d; e]) with (l ++ ([a; b; c; d] ++ [e]))
  end.
  rewrite (assoc_L (++)). apply last_snoc.
Qed.

Lemma demo_mixer_writes_output_only : mixer_writes_output_only demo_world.
Proof.
  intros inputs output f p Hne.
  change (<[default "" (last (ffmpeg_args inputs output)) := 9]> f !! p = f !! p).
  rewrite ffmpeg_args_last. simpl. by rewrite lookup_insert_ne.
Qed.

Lemma cache_hit_skips_engine_witness :
  let st1 := snd (process demo_world (single_request "drums" "remove" None)
                    empty_state) in
  engine_calls (trace st1)
  = [EvNewSeparator "4stems"; EvSeparate "4stems" "uploads/song.mp3" "static/output"]
  ∧ engine_calls
      (trace (snd (process demo_world (single_request "bass" "solo" None) st1)))
    = engine_calls (trace st1).
Proof.
  intros st1. split; [vm_compute; reflexivity|].
  destruct cache_hit_skips_engine as (_ & _ & H).
  refine (proj1 (H demo_world (single_request "drums" "remove" None)
                   (single_request "bass" "solo" None) _ _ empty_state st1 _ _
                   demo_mixer_writes_output_only _ _ _ _ _)).
  - vm_compute. reflexivity.
  - vm_compute. reflexivity.
  - vm_compute. reflexivity.
  - reflexivity.
  - reflexivity.
Defined.

(** ** An empty keep list *)

Lemma filter_all_removed (X : gset string) (sp : list (string * string)) :
  (∀ stem, stem ∈ fst <$> sp → stem ∈ X) →
  filter (λ '(stem, _), stem ∉ X) sp = [].
Proof.
  induction sp as [|[n q] sp IH]; intros H; [done|].
  rewrite filter_cons. destruct (decide (n ∉ X)) as [E|E].
  - exfalso. apply E, H. simpl. left.
  - apply IH. intros stem Hs. apply H. simpl. by right.
Qed.

Lemma planned_decide_keep (w : world) (req : request) (v : validated) kl :
  validate w req = Continue v →
  planned w req = Some kl →
  decide_keep v (stems_paths_for v) = Continue kl.
Proof.
  intros Hv. unfold planned. rewrite Hv.
  destruct (decide_keep v (stems_paths_for v)); by intros [= ->].
Qed.

(** C6.  When the keep list a request comes to is empty, the response is
    the 400 "Nothing to mix. Try a different selection." and the mixer is
    not run: the state is the one the stem stage left, and no mixer call
    was made on the way.  A multi-removal that names every stem of its
    preset comes to an empty keep list. *)
Theorem empty_keep_list_rejected :
  (∀ (w : world) (req : request) (v : validated) (st st1 : state) sp label,
     validate w req = Continue v →
     prepare w v st = (Continue sp, st1) →
     planned w req = Some ([], label) →
     process w req st = (Text "Nothing to mix. Try a different selection." 400, st1)
     ∧ mixer_calls (trace st1) = mixer_calls (trace st))
  ∧ (∀ (w : world) (req : request) (v : validated),
       validate w req = Continue v →
       v_is_multi v = true →
       (∀ stem, stem ∈ fst <$> stems_paths_for v →
                stem ∈ removal_set (form_remove_multi req)) →
       ∃ label, planned w req = Some ([], label)).
Proof.
  split.
  - intros w req v st st1 sp label Hv Hp Hplan.
    split; [|by eapply prepare_no_mixer].
    rewrite process_validate, Hv, run_validated_unfold, Hp.
    apply prepare_continue in Hp as [-> _].
    unfold mix_and_respond, bind, lift.
    by rewrite (planned_decide_keep _ _ _ _ Hv Hplan).
  - intros w req v Hv Hm Hall. eexists.
    rewrite (planned_multi _ _ _ Hv Hm).
    by rewrite (filter_all_removed _ _ Hall).
Qed.

Lemma empty_keep_list_rejected_witness :
  fst (process demo_world
         (multi_request ["drums"; "bass"; "Voice"; "other"] None None) empty_state)
  = Text "Nothing to mix. Try a different selection." 400
  ∧ ∃ label,
      planned demo_world (multi_request ["piano"; "drums"; "bass"; "vocal"; "other"]
                            None None)
      = Some ([], label).
Proof.
  destruct empty_keep_list_rejected as [H1 H2]. split.
  - refine (f_equal fst (proj1 (H1 demo_world _ _ empty_state _ _ _ _ _ _))).
    + vm_compute. reflexivity.
    + vm_compute. reflexivity.
    + vm_compute. reflexivity.
  - refine (H2 demo_world _ _ _ _ _).
    + vm_compute. reflexivity.
    + reflexivity.
    + intros stem Hs. refine (bool_decide_unpack _ _).
      vm_compute in Hs.
      repeat (apply elem_of_cons in Hs as [->|Hs]; [vm_compute; exact I|]).
      by apply elem_of_nil in Hs.
Defined.

(** ** More on instrument names and presets *)

Lemma strip_lower_strip (s : string) :
  Py.strip (Py.lower (Py.strip s)) = Py.lower (Py.strip s).
Proof. by rewrite strip_lower, strip_idemp. Qed.

(** X1.  A normalised name is canonical: it has no white space at either
    end, it is in lower case, and it is never one of the synonyms "voice"
    and "vocal". *)
Theorem normalize_canonical :
  ∀ x : option string,
    Py.strip (normalize_instrument_name x) = normalize_instrument_name x
    ∧ Py.lower (normalize_instrument_name x) = normalize_instrument_name x
    ∧ normalize_instrument_name x ≠ "voice"
    ∧ normalize_instrument_name x ≠ "vocal".
Proof.
  intros x. unfold normalize_instrument_name.
  set (n := Py.lower (Py.strip (Py.or_else x ""))).
  destruct (bool_decide (n ∈ ["voice"; "vocal"])) eqn:E.
  - repeat split; done.
  - apply bool_decide_eq_false in E. subst n.
    split; [apply strip_lower_strip|]. split; [apply lower_idemp|].
    split; intros H; apply E; rewrite H; set_solver.
Qed.

Lemma pick_preset_multi_five (l : list string) :
  pick_preset_multi l = "5stems" ↔ "piano" ∈ removal_set l.
Proof.
  unfold pick_preset_multi. fold (removal_set l).
  destruct (bool_decide (removal_set l = {["vocals"]})) eqn:E1.
  - apply bool_decide_eq_true in E1. rewrite E1. split; [done|].
    intros H. apply elem_of_singleton in H. discriminate H.
  - destruct (bool_decide ("piano" ∈ removal_set l)) eqn:E2.
    + apply bool_decide_eq_true in E2. done.
    + apply bool_decide_eq_false in E2. split; [done|]. intros H. by apply E2 in H.
Qed.

Lemma removal_set_app (l1 l2 : list string) :
  removal_set (l1 ++ l2) = removal_set l1 ∪ removal_set l2.
Proof. unfold removal_set. by rewrite fmap_app, list_to_set_app_L. Qed.

Lemma removal_set_normalised (l : list string) :
  removal_set ((λ x, normalize_instrument_name (Some x)) <$> l) = removal_set l.
Proof.
  unfold removal_set. rewrite <- list_fmap_compose. f_equal.
  apply list_fmap_ext. intros _ x _. simpl. apply normalize_instrument_name_idemp.
Qed.

(** X2.  The multi selector gives 5stems exactly when "piano" is among
    the normalised names, and 4stems otherwise.  So the answer for a
    concatenation is 5stems exactly when it is for one of the parts, and
    it does not depend on the order or the repetitions of the names. *)
Theorem pick_preset_multi_piano :
  ∀ l1 l2 : list string,
    (pick_preset_multi l1 = "5stems" ↔ "piano" ∈ removal_set l1)
    ∧ (pick_preset_multi l1 = "4stems" ↔ "piano" ∉ removal_set l1)
    ∧ (pick_preset_multi (l1 ++ l2) = "5stems"
       ↔ pick_preset_multi l1 = "5stems" ∨ pick_preset_multi l2 = "5stems")
    ∧ (l1 ≡ₚ l2 → pick_preset_multi l1 = pick_preset_multi l2).
Proof.
  intros l1 l2. split; [apply pick_preset_multi_five|]. split; [|split].
  - rewrite <- pick_preset_multi_five.
    pose proof (pick_preset_multi_known l1) as H.
    apply elem_of_cons in H as [H|H]; [rewrite H; split; [discriminate|done]|].
    apply list_elem_of_singleton in H. rewrite H. split; [discriminate|done].
  - rewrite !pick_preset_multi_five, removal_set_app. set_solver.
  - intros Hp. unfold pick_preset_multi.
    assert (list_to_set ((λ x, normalize_instrument_name (Some x)) <$> l1)
            =@{gset string}
            list_to_set ((λ x, normalize_instrument_name (Some x)) <$> l2)) as ->;
      [|done].
    apply set_eq. intros x. rewrite !elem_of_list_to_set. by rewrite Hp.
Qed.

Lemma pick_preset_multi_piano_witness :
  pick_preset_multi ["drums"; "Piano"; "bass"] = pick_preset_multi ["bass"; "drums"; "Piano"].
Proof.
  destruct (pick_preset_multi_piano ["drums"; "Piano"; "bass"] ["bass"; "drums"; "Piano"])
    as (_ & _ & _ & H).
  apply H.
  change ["drums"; "Piano"; "bass"] with (["drums"; "Piano"] ++ ["bass"]).
  change ["bass"; "drums"; "Piano"] with (["bass"] ++ ["drums"; "Piano"]).
  apply Permutation_app_comm.
Defined.

(** X3.  The selectors see through normalisation: [process] hands them
    names that are normalised already, and they give what they give on
    the raw names.  For one name the multi selector agrees with the single
    selector without the karaoke flag. *)
Theorem selectors_on_normalised_names :
  ∀ (l : list string) (x : string) (k : bool),
    pick_preset_multi ((λ y, normalize_instrument_name (Some y)) <$> l)
    = pick_preset_multi l
    ∧ pick_preset_single (Some (normalize_instrument_name (Some x))) k
      = pick_preset_single (Some x) k
    ∧ pick_preset_multi [x] = pick_preset_single (Some x) false.
Proof.
  intros l x k. split; [|split].
  - unfold pick_preset_multi.
    fold (removal_set ((λ y, normalize_instrument_name (Some y)) <$> l)).
    fold (removal_set l). by rewrite removal_set_normalised.
  - unfold pick_preset_single. by rewrite normalize_instrument_name_idemp.
  - unfold pick_preset_multi, pick_preset_single. simpl.
    rewrite union_empty_r_L.
    set (t := normalize_instrument_name (Some x)).
    destruct (bool_decide (t = "piano")) eqn:E.
    + apply bool_decide_eq_true in E. rewrite E. reflexivity.
    + apply bool_decide_eq_false in E.
      rewrite (bool_decide_eq_false_2 ("piano" ∈ _)); [by case_match|].
      intros H. apply elem_of_singleton in H. by apply E.
Qed.

(** ** More on validation *)

Lemma validate_file (w : world) (req : request) (v : validated) :
  validate w req = Continue v →
  ∃ name size,
    audio_file req = Some (Upload (Some name) size)
    ∧ name ≠ ""
    ∧ v_filename v = secure_filename w name
    ∧ v_size v = size
    ∧ Py.lower (snd (Py.splitext (v_filename v))) ∈ ALLOWED
    ∧ v_is_multi v = truthy_flag (form_multi req)
    ∧ v_instrument v
      = normalize_instrument_name (Some (default "drums" (form_instrument req))).
Proof.
  unfold validate. intros Hv.
  repeat case_match; simplify_eq/=; eexists _, _; repeat split; try done.
  all: match goal with H : negb (bool_decide (_ ∈ ALLOWED)) = false |- _ =>
         apply negb_false_iff, bool_decide_eq_true in H; exact H end.
Qed.

Lemma validate_return (w : world) (req : request) (r : response) :
  validate w req = Return r → ∃ body, r = Text body 400.
Proof.
  unfold validate. intros H. repeat case_match; simplify_eq/=; by eexists.
Qed.

(** X4.  A request that validation turns down gets a 400 text and leaves
    no trace: no file is written, no separator built, no call made. *)
Theorem validation_rejects_without_effects :
  ∀ (w : world) (req : request) (st : state) (r : response),
    validate w req = Return r →
    process w req st = (r, st) ∧ ∃ body, r = Text body 400.
Proof.
  intros w req st r H. split; [by rewrite process_validate, H|].
  by eapply validate_return.
Qed.

Lemma validation_rejects_without_effects_witness :
  process demo_world (multi_request [] None None) empty_state
  = (Text "Choose at least one instrument to remove in multi-removal mode." 400,
     empty_state).
Proof.
  apply (validation_rejects_without_effects demo_world (multi_request [] None None)
           empty_state).
  reflexivity.
Defined.

(** X5.  The checks come in a fixed order.  Without a file, or with an
    empty file name, the answer is "No file uploaded".  With a file of an
    allowed type, an action that is neither "remove" nor "solo" gives
    "Invalid action", in multi mode too.  With a valid action, multi mode
    with no name to remove gives "Choose at least one instrument ...".
    All three are 400 and leave the state as it was. *)
Theorem validation_order :
  ∀ (w : world) (req : request) (st : state),
    ((∀ name size, audio_file req = Some (Upload (Some name) size) → name = "") →
     process w req st = (Text "No file uploaded" 400, st))
    ∧ (∀ name size,
         audio_file req = Some (Upload (Some name) size) → name ≠ "" →
         ext_of w name ∈ ALLOWED →
         action_of (form_action req) ∉ ["remove"; "solo"] →
         process w req st = (Text "Invalid action" 400, st))
    ∧ (∀ name size,
         audio_file req = Some (Upload (Some name) size) → name ≠ "" →
         ext_of w name ∈ ALLOWED →
         action_of (form_action req) ∈ ["remove"; "solo"] →
         truthy_flag (form_multi req) = true →
         form_remove_multi req = [] →
         process w req st
         = (Text "Choose at least one instrument to remove in multi-removal mode." 400,
            st)).
Proof.
  intros w req st. rewrite process_validate. unfold validate, ext_of, action_of.
  split; [|split].
  - intros H. destruct (audio_file req) as [[[[|c r]|] size]|]; try done.
    by specialize (H _ _ eq_refl).
  - intros name size -> Hn Hext Hact. destruct name as [|c r]; [done|].
    rewrite (bool_decide_eq_true_2 _ Hext). simpl.
    by rewrite (bool_decide_eq_false_2 _ Hact).
  - intros name size -> Hn Hext Hact Hm Hl. destruct name as [|c r]; [done|].
    rewrite (bool_decide_eq_true_2 _ Hext). simpl.
    rewrite (bool_decide_eq_true_2 _ Hact). simpl. by rewrite Hm, Hl.
Qed.

Lemma validation_order_witness :
  process demo_world (Request (Some (Upload (Some "") 3)) None [] None None None)
    empty_state
  = (Text "No file uploaded" 400, empty_state)
  ∧ process demo_world (multi_request ["drums"] (Some "mute") None) empty_state
    = (Text "Invalid action" 400, empty_state)
  ∧ process demo_world (multi_request [] (Some "Solo") None) empty_state
    = (Text "Choose at least one instrument to remove in multi-removal mode." 400,
       empty_state).
Proof.
  split; [|split].
  - apply (validation_order demo_world _ empty_state). by intros name size [= <- _].
  - apply (proj1 (proj2 (validation_order demo_world _ empty_state)) "song.mp3" 1000).
    + reflexivity.
    + discriminate.
    + refine (bool_decide_unpack _ _); vm_compute; exact I.
    + refine (bool_decide_unpack _ _); vm_compute; exact I.
  - apply (proj2 (proj2 (validation_order demo_world _ empty_state)) "song.mp3" 1000).
    + reflexivity.
    + discriminate.
    + refine (bool_decide_unpack _ _); vm_compute; exact I.
    + refine (bool_decide_unpack _ _); vm_compute; exact I.
    + reflexivity.
    + reflexivity.
Defined.

(** ** The file name of an accepted upload *)

Lemma split_last_dot_app (s a b : string) :
  Py.split_last_dot s = Some (a, b) → s = a +:+ b ∧ ∃ r, b = String "." r.
Proof.
  revert a b. induction s as [|c s IH]; intros a b; simpl; [done|].
  destruct (Py.split_last_dot s) as [[a' b']|].
  - intros [= <- <-]. destruct (IH _ _ eq_refl) as [-> Hb]. by split.
  - destruct (Ascii.eqb c ".") eqn:E; [|done].
    apply Ascii.eqb_eq in E as ->. intros [= <- <-]. split; [done|by eexists].
Qed.

Lemma app_empty_r (s : string) : s +:+ "" = s.
Proof. induction s as [|c s IH]; [done|]. by rewrite app_String, IH. Qed.

Lemma splitext_app (p : string) :
  p = fst (Py.splitext p) +:+ snd (Py.splitext p)
  ∧ (snd (Py.splitext p) ≠ "" →
     fst (Py.splitext p) ≠ "" ∧ ∃ r, snd (Py.splitext p) = String "." r).
Proof.
  unfold Py.splitext.
  destruct (Py.split_last_dot p) as [[a b]|] eqn:E; simpl.
  - apply split_last_dot_app in E as [-> Hb].
    destruct (Py.all_dots a) eqn:Ea; simpl.
    + split; [by rewrite app_empty_r|done].
    + split; [done|]. intros _. split; [by destruct a|done].
  - split; [by rewrite app_empty_r|done].
Qed.

(** X6.  For an accepted upload the secured file name is the base name
    followed by the extension; the extension is a dot and more, allowed
    when lower-cased; and the base name, which names the output directory
    and starts the name of the mix, is not empty. *)
Theorem accepted_file_name :
  ∀ (w : world) (req : request) (v : validated),
    validate w req = Continue v →
    ∃ ext,
      v_filename v = base_of v +:+ ext
      ∧ Py.lower ext ∈ ALLOWED
      ∧ (∃ r, ext = String "." r)
      ∧ base_of v ≠ "".
Proof.
  intros w req v Hv.
  destruct (validate_file _ _ _ Hv) as (name & size & _ & _ & _ & _ & Hext & _).
  exists (snd (Py.splitext (v_filename v))).
  destruct (splitext_app (v_filename v)) as [Happ Hne].
  split; [exact Happ|]. split; [exact Hext|].
  assert (snd (Py.splitext (v_filename v)) ≠ "") as Hnz.
  { intros E. rewrite E in Hext. simpl in Hext.
    unfold ALLOWED in Hext.
    repeat (apply elem_of_cons in Hext as [Hext|Hext]; [discriminate|]).
    by apply elem_of_nil in Hext. }
  destruct (Hne Hnz) as [Hb Hr]. by split.
Qed.

Lemma accepted_file_name_witness :
  ∃ ext, "My.Song.MP3" = "My.Song" +:+ ext ∧ Py.lower ext ∈ ALLOWED
         ∧ (∃ r, ext = String "." r) ∧ "My.Song" ≠ "".
Proof.
  refine (accepted_file_name demo_world
            (Request (Some (Upload (Some "My.Song.MP3") 1)) None [] None None None)
            (Validated 1 "My.Song.MP3" false [] "drums" "remove" "4stems") _).
  vm_compute. reflexivity.
Defined.

(** ** Which preset goes with which target *)

Lemma validated_instrument_normalised (w : world) (req : request) (v : validated) :
  validate w req = Continue v →
  normalize_instrument_name (Some (v_instrument v)) = v_instrument v.
Proof.
  intros Hv. destruct (validate_file _ _ _ Hv) as (? & ? & _ & _ & _ & _ & _ & _ & ->).
  apply normalize_instrument_name_idemp.
Qed.

Lemma pick_preset_single_two (i : option string) (k : bool) :
  pick_preset_single i k = "2stems"
  ↔ normalize_instrument_name i = "vocals" ∧ k = true.
Proof.
  unfold pick_preset_single.
  destruct (bool_decide (normalize_instrument_name i = "piano")) eqn:E1.
  - apply bool_decide_eq_true in E1. rewrite E1. split; [done|]. by intros [[=] _].
  - destruct k; simpl.
    + destruct (bool_decide (normalize_instrument_name i = "vocals")) eqn:E2.
      * apply bool_decide_eq_true in E2. done.
      * apply bool_decide_eq_false in E2. split; [done|]. by intros [? _].
    + split; [done|]. by intros [_ [=]].
Qed.

Lemma pick_preset_single_five (i : option string) (k : bool) :
  pick_preset_single i k = "5stems" ↔ normalize_instrument_name i = "piano".
Proof.
  unfold pick_preset_single.
  destruct (bool_decide (normalize_instrument_name i = "piano")) eqn:E1.
  - apply bool_decide_eq_true in E1. done.
  - apply bool_decide_eq_false in E1. by repeat case_match.
Qed.

(** X7.  For a validated request, the preset is 2stems exactly in single
    mode with target "vocals" and the karaoke field set; it is 5stems
    exactly when "piano" is the single target, or in multi mode one of
    the names to remove; in every other case it is 4stems. *)
Theorem preset_of_validated :
  ∀ (w : world) (req : request) (v : validated),
    validate w req = Continue v →
    (v_preset v = "2stems"
     ↔ v_is_multi v = false ∧ v_instrument v = "vocals"
       ∧ truthy_flag (form_karaoke req) = true)
    ∧ (v_preset v = "5stems"
       ↔ if v_is_multi v then "piano" ∈ removal_set (form_remove_multi req)
         else v_instrument v = "piano")
    ∧ v_preset v ∈ ["2stems"; "4stems"; "5stems"].
Proof.
  intros w req v Hv. pose proof (validated_instrument_normalised _ _ _ Hv) as Hn.
  destruct (v_is_multi v) eqn:Hm.
  - destruct (validate_multi _ _ _ Hv Hm) as (Hl & _ & _ & ->).
    pose proof (pick_preset_multi_known (v_removals_multi v)) as Hk.
    split; [|split].
    + split; [|by intros [? _]]. intros E. rewrite E in Hk.
      apply elem_of_cons in Hk as [Hk|Hk]; [done|].
      by apply list_elem_of_singleton in Hk.
    + by rewrite pick_preset_multi_five, Hl, removal_set_normalised.
    + by right.
  - destruct (validate_single _ _ _ Hv Hm) as (_ & _ & _ & ->).
    split; [|split].
    + rewrite pick_preset_single_two, Hn.
      split; [by intros [? ?]|by intros (_ & ? & ?)].
    + by rewrite pick_preset_single_five, Hn.
    + apply pick_preset_single_known.
Qed.

Lemma preset_of_validated_witness :
  truthy_flag (form_karaoke (single_request "Voice" "remove" (Some "1"))) = true
  ∧ v_preset (Validated 1000 "song.mp3" false [] "piano" "solo" "5stems") = "5stems".
Proof.
  split.
  - refine (proj2 (proj2 (proj1 (proj1
      (preset_of_validated demo_world (single_request "Voice" "remove" (Some "1"))
         (Validated 1000 "song.mp3" false [] "vocals" "remove" "2stems") _)) _))).
    + vm_compute. reflexivity.
    + reflexivity.
  - refine (proj2 (proj1 (proj2
      (preset_of_validated demo_world (single_request "Piano" "solo" (Some "1"))
         (Validated 1000 "song.mp3" false [] "piano" "solo" "5stems") _))) _).
    + vm_compute. reflexivity.
    + reflexivity.
Defined.

(** X8.  Two guards of [process] never fire.  The "Fast Karaoke Mode"
    answer of line 143 is given for no request, and for a validated
    request the "not available in 2-stems" answer of line 190 is not
    given either: 2stems is chosen for the target "vocals" only. *)
Theorem two_stems_guards_unreachable :
  ∀ (w : world) (req : request),
    validate w req
    ≠ Return (Text "Fast Karaoke Mode (2-stems) only supports 'vocals' or 'accompaniment'." 400)
    ∧ ∀ (v : validated) (sp : list (string * string)),
        validate w req = Continue v →
        decide_keep v sp
        ≠ Return (Text ("'" +:+ v_instrument v +:+ "' not available in 2-stems.") 400).
Proof.
  intros w req. split.
  - unfold validate. intros H.
    repeat case_match; simplify_eq/=.
    match goal with
    | H : bool_decide (pick_preset_single ?i ?k = "2stems") && negb _ = true |- _ =>
        apply andb_true_iff in H as [H1 H2];
        apply bool_decide_eq_true, pick_preset_single_two in H1 as [H1 _];
        rewrite normalize_instrument_name_idemp in H1; rewrite H1 in H2
    end.
    done.
  - intros v sp Hv H. unfold decide_keep in H.
    destruct (v_is_multi v) eqn:Hm; [done|].
    destruct (bool_decide (v_preset v = "2stems")) eqn:E; simpl in H.
    + apply bool_decide_eq_true in E.
      destruct (validate_single _ _ _ Hv Hm) as (_ & _ & _ & Hp).
      rewrite Hp in E. apply pick_preset_single_two in E as [E _].
      rewrite (validated_instrument_normalised _ _ _ Hv) in E.
      rewrite E in H. simpl in H. repeat case_match; simplify_eq/=.
    + repeat case_match; simplify_eq/=.
Qed.

(** ** The stages of a run, case by case *)

Lemma new_separators_app (a b : list event) :
  new_separators (a ++ b) = new_separators a ++ new_separators b.
Proof.
  induction a as [|e a IH]; simpl; [done|]. destruct e; simpl; by rewrite ?IH.
Qed.

Lemma separations_app (a b : list event) :
  separations (a ++ b) = separations a ++ separations b.
Proof.
  induction a as [|e a IH]; simpl; [done|]. destruct e; simpl; by rewrite ?IH.
Qed.

Lemma need_separate_saved (v : validated) (st : state) :
  need_separate v (fs (saved v st)) = need_separate v (fs st).
Proof.
  unfold need_separate, stems_paths_for. simpl.
  pose proof (in_path_not_stem v (default [] (expected_stems_for (v_preset v)))) as Hin.
  induction (stems_paths_of _ _) as [|[n q] sp IH]; [done|]. simpl in *.
  rewrite IH by (intros H; apply Hin; by right).
  rewrite missing_or_empty_insert_ne; [done|]. intros ->. apply Hin. by left.
Qed.

(** The stem stage when a stem is missing: the engine is asked, once. *)
Lemma prepare_miss (w : world) (v : validated) (st : state) :
  is_Some (expected_stems_for (v_preset v)) →
  need_separate v (fs st) = true →
  prepare w v st
  = let stg := with_separator (v_preset v) (saved v st) in
    let ev := EvSeparate (v_preset v) (in_path_of v) OUTPUT_ROOT in
    match separate_to_file w (v_preset v) (in_path_of v) OUTPUT_ROOT
            (fs (saved v st)) with
    | (Some e, f1) =>
        (Return (Text ("Spleeter failed (" +:+ v_preset v +:+ "): " +:+ e) 500),
         State f1 (separators stg) (trace stg ++ [ev]))
    | (None, f1) =>
        let f3 := unlinked w (in_path_of v) f1 in
        let st3 := State f3 (separators stg)
                         (trace stg ++ [ev; EvUnlink (in_path_of v)]) in
        match missing_stems v f3 with
        | [] => (Continue (stems_paths_for v), st3)
        | m :: ms =>
            (Return (Text ("Unexpected output for " +:+ v_preset v
                           +:+ ". Missing/empty stems: " +:+ repr_list w (m :: ms)
                           +:+ ". Present: "
                           +:+ repr_list w (glob_wav_names (out_dir_of v) f3)) 500),
             st3)
        end
    end.
Proof.
  intros [stems_files Hfiles] Hneed. rewrite <- need_separate_saved in Hneed.
  unfold need_separate, missing_stems, stems_paths_for, with_separator in *.
  unfold prepare. rewrite Hfiles in *. simpl in Hneed |- *.
  unfold bind at 1 2 3 4 5. unfold get_fs, emit, set_fs, ret. simpl.
  unfold ensure_stems, bind, get_fs, emit, set_fs, ret, exit. simpl.
  unfold saved in Hneed. simpl in Hneed. rewrite Hneed.
  unfold get_separator, saved, unlinked. simpl.
  destruct (bool_decide (v_preset v ∈ separators st)); simpl;
    destruct (separate_to_file _ _ _ _ _) as [[e|] f1]; simpl;
    try (by rewrite <- ?(assoc_L (++)));
    destruct (unlink_raises w (in_path_of v) f1); simpl;
    destruct (filter _ _) as [|[m q] ms]; simpl;
    by rewrite <- ?(assoc_L (++)).
Qed.

Lemma dict_get_is_Some (k : string) (d : list (string * string)) :
  k ∈ fst <$> d → is_Some (dict_get k d).
Proof.
  induction d as [|[k' x] d IH]; simpl; [by intros ?%elem_of_nil|].
  intros H. destruct (bool_decide (k' = k)) eqn:E; [by eexists|].
  apply bool_decide_eq_false in E. apply elem_of_cons in H as [->|H]; [done|auto].
Qed.

(** The last stage once the keep list is known not to be empty. *)
Lemma mix_and_respond_mix (w : world) (v : validated) sp (st : state) keep label :
  decide_keep v sp = Continue (keep, label) →
  keep ≠ [] →
  mix_and_respond w v sp st
  = let args := ffmpeg_args keep (mix_path_of v label) in
    let st' f' := State f' (separators st) (trace st ++ [EvRun args]) in
    match subprocess_run w args (fs st) with
    | (Completed, f') => (Continue (result_page w v label), st' f')
    | (CalledProcessError e, f') =>
        if bool_decide (e = "") then (Continue (result_page w v label), st' f')
        else (Return (Text ("FFmpeg mix failed: " +:+ e) 500), st' f')
    end.
Proof.
  intros Hk Hne. unfold mix_and_respond, bind, lift. rewrite Hk.
  rewrite (length_nonzero _ Hne). unfold ffmpeg_mix.
  rewrite (length_nonzero _ Hne). unfold mix_path_of, result_page.
  destruct (subprocess_run _ _ _) as [[|e] f']; simpl; [done|].
  by destruct (bool_decide (e = "")).
Qed.

(** Planning never misses a key: it stops with a 400 text or goes on. *)
Lemma decide_keep_return_text (v : validated) sp (r : response) :
  decide_keep v sp = Return r → ∃ body, r = Text body 400.
Proof.
  unfold decide_keep. intros H.
  repeat case_match; simplify_eq/=; try by eexists.
  match goal with
  | H : negb (bool_decide (?k ∈ _)) = false, E : dict_get ?k _ = None |- _ =>
      apply negb_false_iff, bool_decide_eq_true, dict_get_is_Some in H;
      rewrite E in H; by destruct H
  end.
Qed.

Lemma mix_and_respond_stop (w : world) (v : validated) sp (st : state) :
  (∀ keep label, decide_keep v sp = Continue (keep, label) → keep = []) →
  ∃ body, mix_and_respond w v sp st = (Return (Text body 400), st).
Proof.
  intros H. unfold mix_and_respond, bind, lift.
  destruct (decide_keep v sp) as [[keep label]|r] eqn:E.
  - rewrite (H _ _ eq_refl). simpl. by eexists.
  - apply decide_keep_return_text in E as [body ->]. by eexists.
Qed.

Lemma with_separator_trace (p : string) (st : state) :
  trace (with_separator p st)
  = trace st ++ (if bool_decide (p ∈ separators st) then [] else [EvNewSeparator p]).
Proof.
  unfold with_separator, get_separator.
  destruct (bool_decide (p ∈ separators st)); simpl; by rewrite ?app_nil_r.
Qed.

Lemma with_separator_separators (p : string) (st : state) :
  separators (with_separator p st) = {[p]} ∪ separators st.
Proof.
  unfold with_separator, get_separator.
  destruct (bool_decide (p ∈ separators st)) eqn:E; simpl; [|done].
  apply bool_decide_eq_true in E. apply set_eq. intros x.
  rewrite elem_of_union, elem_of_singleton. split; [by right|by intros [->|?]].
Qed.

Lemma with_separator_fs (p : string) (st : state) :
  fs (with_separator p st) = fs st.
Proof. unfold with_separator, get_separator. by case_match. Qed.

(** What the stem stage can do, in one statement: the events after the
    upload is saved, the cache, and how it ends. *)
Lemma prepare_shape (w : world) (v : validated) (st : state) :
  is_Some (expected_stems_for (v_preset v)) →
  ∃ o stp l,
    prepare w v st = (o, stp)
    ∧ trace stp = trace (saved v st) ++ l
    ∧ mixer_calls l = []
    ∧ new_separators l
      = (if need_separate v (fs st) && negb (bool_decide (v_preset v ∈ separators st))
         then [v_preset v] else [])
    ∧ separations l
      = (if need_separate v (fs st)
         then [(v_preset v, in_path_of v, OUTPUT_ROOT)] else [])
    ∧ separators stp
      = (if need_separate v (fs st) then {[v_preset v]} ∪ separators st
         else separators st)
    ∧ (o = Continue (stems_paths_for v) ∨ ∃ body, o = Return (Text body 500))
    ∧ (need_separate v (fs st) = false → o = Continue (stems_paths_for v)).
Proof.
  intros Hk. destruct (need_separate v (fs st)) eqn:Hneed.
  - rewrite (prepare_miss _ _ _ Hk Hneed). cbv zeta.
    destruct (separate_to_file _ _ _ _ _) as [[e|] f1].
    + eexists _, _, _. split; [done|]. simpl.
      rewrite with_separator_trace, with_separator_separators, <- (assoc_L (++)).
      split; [done|]. simpl.
      destruct (bool_decide (v_preset v ∈ separators st)); simpl;
        repeat split; try done; right; by eexists.
    + destruct (missing_stems _ _) as [|m ms];
        eexists _, _, _; (split; [done|]); simpl;
        rewrite with_separator_trace, with_separator_separators,
          <- (assoc_L (++)); (split; [done|]); simpl;
        destruct (bool_decide (v_preset v ∈ separators st)); simpl;
        repeat split; try done; try (by left); right; by eexists.
  - rewrite prepare_hit.
    + eexists _, _, [EvUnlink (in_path_of v)]. split; [done|]. simpl.
      rewrite <- (assoc_L (++)). repeat split; try done. by left.
    + done.
    + by apply stems_all_present.
Qed.

(** What the last stage can do. *)
Lemma mix_shape (w : world) (v : validated) sp (stp : state) :
  ∃ o st',
    mix_and_respond w v sp stp = (o, st')
    ∧ separators st' = separators stp
    ∧ ((st' = stp ∧ ∃ body, o = Return (Text body 400))
       ∨ ∃ keep label res f',
           decide_keep v sp = Continue (keep, label)
           ∧ keep ≠ []
           ∧ subprocess_run w (ffmpeg_args keep (mix_path_of v label)) (fs stp)
             = (res, f')
           ∧ st' = State f' (separators stp)
                     (trace stp ++ [EvRun (ffmpeg_args keep (mix_path_of v label))])
           ∧ ((o = Continue (result_page w v label)
               ∧ (res = Completed ∨ res = CalledProcessError ""))
              ∨ ∃ e, res = CalledProcessError e ∧ e ≠ ""
                     ∧ o = Return (Text ("FFmpeg mix failed: " +:+ e) 500))).
Proof.
  destruct (decide_keep v sp) as [[keep label]|r] eqn:E.
  - destruct keep as [|k keep].
    + destruct (mix_and_respond_stop w v sp stp) as [body Hb].
      { intros keep' label' E'. rewrite E in E'. by injection E' as <- _. }
      eexists _, _. split; [exact Hb|]. split; [done|]. left. split; [done|by eexists].
    + rewrite (mix_and_respond_mix _ _ _ _ _ _ E) by done. cbv zeta.
      destruct (subprocess_run _ _ _) as [[|e] f'] eqn:Er.
      * eexists _, _. split; [done|]. split; [done|]. right.
        eexists _, _, _, _. repeat split; try done. left. split; [done|by left].
      * destruct (bool_decide (e = "")) eqn:Ee.
        -- apply bool_decide_eq_true in Ee as ->.
           eexists _, _. split; [done|]. split; [done|]. right.
           eexists _, _, _, _. repeat split; try done. left. split; [done|by right].
        -- apply bool_decide_eq_false in Ee.
           eexists _, _. split; [done|]. split; [done|]. right.
           eexists _, _, _, _. repeat split; try done. right. by eexists.
  - destruct (mix_and_respond_stop w v sp stp) as [body Hb].
    { intros keep' label' E'. by rewrite E in E'. }
    eexists _, _. split; [exact Hb|]. split; [done|]. left. split; [done|by eexists].
Qed.

(** ** The separator cache *)

(** X9.  [get_separator] builds a separator for a preset at most once:
    after a call the preset is in the cache and the others are as before,
    a separator is built only for a preset that was not in the cache, and
    a second call for the same preset changes nothing and builds
    nothing. *)
Theorem get_separator_builds_once :
  ∀ (preset : string) (st : state),
    separators (with_separator preset st) = {[preset]} ∪ separators st
    ∧ fs (with_separator preset st) = fs st
    ∧ (preset ∈ separators st → with_separator preset st = st)
    ∧ new_separators (trace (with_separator preset st))
      = new_separators (trace st)
        ++ (if bool_decide (preset ∈ separators st) then [] else [preset])
    ∧ with_separator preset (with_separator preset st) = with_separator preset st.
Proof.
  intros preset st.
  split; [apply with_separator_separators|]. split; [apply with_separator_fs|].
  assert (∀ s, preset ∈ separators s → with_separator preset s = s) as Hin.
  { intros s H. unfold with_separator, get_separator.
    by rewrite (bool_decide_eq_true_2 _ H). }
  split; [apply Hin|]. split.
  - rewrite with_separator_trace, new_separators_app. by case_match.
  - apply Hin. rewrite with_separator_separators.
    apply elem_of_union_l. by apply elem_of_singleton.
Qed.

Lemma get_separator_builds_once_witness :
  with_separator "4stems" (State ∅ {["4stems"]} []) = State ∅ {["4stems"]} [].
Proof.
  apply (get_separator_builds_once "4stems" (State ∅ {["4stems"]} [])).
  refine (bool_decide_unpack _ _); vm_compute; exact I.
Defined.

Lemma process_shape (w : world) (req : request) (v : validated) (st : state) :
  validate w req = Continue v →
  ∃ o stp l o' st',
    prepare w v st = (o, stp)
    ∧ trace stp = trace (saved v st) ++ l
    ∧ mixer_calls l = []
    ∧ new_separators l
      = (if need_separate v (fs st) && negb (bool_decide (v_preset v ∈ separators st))
         then [v_preset v] else [])
    ∧ separations l
      = (if need_separate v (fs st)
         then [(v_preset v, in_path_of v, OUTPUT_ROOT)] else [])
    ∧ separators stp
      = (if need_separate v (fs st) then {[v_preset v]} ∪ separators st
         else separators st)
    ∧ process w req st = finish (o', st')
    ∧ ((∃ body, o = Return (Text body 500) ∧ o' = Return (Text body 500) ∧ st' = stp
                ∧ need_separate v (fs st) = true)
       ∨ (o = Continue (stems_paths_for v)
          ∧ mix_and_respond w v (stems_paths_for v) stp = (o', st'))).
Proof.
  intros Hv.
  destruct (prepare_shape w v st (validate_preset_known _ _ _ Hv))
    as (o & stp & l & Hp & Ht & Hm & Hn & Hs & Hc & Ho & Hhit).
  rewrite process_validate, Hv, run_validated_unfold, Hp.
  destruct Ho as [-> | [body ->]].
  - destruct (mix_and_respond w v (stems_paths_for v) stp) as [o' st'] eqn:E.
    eexists _, stp, l, o', st'. repeat split; try done. by right.
  - eexists _, stp, l, _, stp. repeat split; try done. left.
    eexists. repeat split; try done.
    destruct (need_separate v (fs st)); [done|]. by specialize (Hhit eq_refl).
Qed.


Lemma planned_of_decide_keep (w : world) (req : request) (v : validated) kl :
  validate w req = Continue v →
  decide_keep v (stems_paths_for v) = Continue kl →
  planned w req = Some kl.
Proof. intros Hv E. unfold planned. by rewrite Hv, E. Qed.


(** X10.  Requests keep the separator cache consistent with the history:
    if every separator built so far is in the cache and none was built
    twice, the same holds after any request, and no preset leaves the
    cache.  So over any sequence of requests from a fresh process each
    preset's separator is built at most once. *)
Theorem process_keeps_cache_consistent :
  ∀ (w : world) (req : request) (st : state),
    cache_consistent st →
    cache_consistent (snd (process w req st))
    ∧ separators st ⊆ separators (snd (process w req st)).
Proof.
  intros w req st [Hnd Hin].
  destruct (validate w req) as [v|r] eqn:Hv.
  2:{ rewrite process_validate, Hv. simpl. by repeat split. }
  destruct (process_shape w req v st Hv)
    as (o & stp & l & o' & st' & _ & Ht & _ & Hn & _ & Hc & -> & Hcase).
  rewrite snd_finish. simpl.
  assert (new_separators (trace st') = new_separators (trace stp)
          ∧ separators st' = separators stp) as [Hn' Hc'].
  { destruct Hcase as [(body & _ & _ & -> & _) | [_ Hmix]]; [done|].
    destruct (mix_shape w v (stems_paths_for v) stp)
      as (o2 & st2 & Hmix' & Hs & Hst).
    rewrite Hmix in Hmix'. injection Hmix' as <- <-. split; [|done].
    destruct Hst as [[-> _] | (keep & label & res & f' & _ & _ & _ & -> & _)];
      [done|].
    simpl. rewrite new_separators_app. simpl. by rewrite app_nil_r. }
  unfold cache_consistent. rewrite Hn', Hc', Ht, Hc. unfold saved. simpl.
  rewrite !new_separators_app, Hn. simpl. rewrite app_nil_r.
  destruct (need_separate v (fs st)); simpl.
  - destruct (bool_decide (v_preset v ∈ separators st)) eqn:E; simpl.
    + rewrite app_nil_r. split; [split; [done|]|].
      * intros p Hp. apply elem_of_union_r. by apply Hin.
      * apply union_subseteq_r.
    + apply bool_decide_eq_false in E. split; [split|].
      * apply NoDup_app. split; [done|]. split; [|apply NoDup_singleton].
        intros p Hp Hp'. apply list_elem_of_singleton in Hp' as ->.
        by apply E, Hin.
      * intros p Hp. apply elem_of_app in Hp as [Hp|Hp].
        -- apply elem_of_union_r. by apply Hin.
        -- apply list_elem_of_singleton in Hp as ->.
           apply elem_of_union_l. by apply elem_of_singleton.
      * apply union_subseteq_r.
  - rewrite app_nil_r. by repeat split.
Qed.

Lemma process_keeps_cache_consistent_witness :
  cache_consistent
    (snd (process demo_world (single_request "piano" "solo" None)
            (snd (process demo_world (single_request "drums" "remove" None)
                    empty_state)))).
Proof.
  apply process_keeps_cache_consistent.
  apply process_keeps_cache_consistent.
  split; [apply NoDup_nil_2|]. intros p Hp. by apply elem_of_nil in Hp.
Defined.

(** X11.  A request that passes validation runs the separation exactly
    once when a stem file of its preset is missing or empty, on the saved
    upload and towards the output root, and not at all otherwise. *)
Theorem separations_of_a_request :
  ∀ (w : world) (req : request) (v : validated) (st : state),
    validate w req = Continue v →
    separations (trace (snd (process w req st)))
    = separations (trace st)
      ++ (if need_separate v (fs st)
          then [(v_preset v, in_path_of v, OUTPUT_ROOT)] else []).
Proof.
  intros w req v st Hv.
  destruct (process_shape w req v st Hv)
    as (o & stp & l & o' & st' & _ & Ht & _ & _ & Hs & _ & -> & Hcase).
  rewrite snd_finish. simpl.
  assert (separations (trace st') = separations (trace stp)) as ->.
  { destruct Hcase as [(body & _ & _ & -> & _) | [_ Hmix]]; [done|].
    destruct (mix_shape w v (stems_paths_for v) stp)
      as (o2 & st2 & Hmix' & _ & Hst).
    rewrite Hmix in Hmix'. injection Hmix' as <- <-.
    destruct Hst as [[-> _] | (keep & label & res & f' & _ & _ & _ & -> & _)];
      [done|].
    simpl. rewrite separations_app. simpl. by rewrite app_nil_r. }
  rewrite Ht. unfold saved. simpl. rewrite !separations_app, Hs. simpl.
  by rewrite app_nil_r.
Qed.

Lemma separations_of_a_request_witness :
  separations (trace (snd (process demo_world (single_request "drums" "remove" None)
                            empty_state)))
  = [("4stems", "uploads/song.mp3", "static/output")].
Proof.
  refine (separations_of_a_request demo_world (single_request "drums" "remove" None)
            (Validated 1000 "song.mp3" false [] "drums" "remove" "4stems")
            empty_state _).
  vm_compute. reflexivity.
Defined.

(** ** Responses *)

(** Every run, by its events: what the stem stage added and whether the
    mixer ran. *)
Lemma process_events (w : world) (req : request) (v : validated) (st : state) :
  validate w req = Continue v →
  ∃ stp o' st',
    process w req st = finish (o', st')
    ∧ mixer_calls (trace stp) = mixer_calls (trace st)
    ∧ separations (trace stp)
      = separations (trace st)
        ++ (if need_separate v (fs st)
            then [(v_preset v, in_path_of v, OUTPUT_ROOT)] else [])
    ∧ ((∃ body, o' = Return (Text body 500) ∧ st' = stp
                ∧ need_separate v (fs st) = true)
       ∨ (prepare w v st = (Continue (stems_paths_for v), stp)
          ∧ mix_and_respond w v (stems_paths_for v) stp = (o', st'))).
Proof.
  intros Hv.
  destruct (process_shape w req v st Hv)
    as (o & stp & l & o' & st' & Hp & Ht & Hm & _ & Hs & _ & Hproc & Hcase).
  exists stp, o', st'. split; [done|].
  rewrite Ht. unfold saved. simpl.
  rewrite !mixer_calls_app, !separations_app, Hm, Hs. simpl.
  rewrite !app_nil_r. repeat split; try done.
  destruct Hcase as [(body & _ & -> & -> & Hn) | [-> Hmix]].
  - left. by eexists.
  - by right.
Qed.




(** ** Failures of the engine and of the mixer *)

(** X14.  When a stem is missing and the engine raises, the answer is the
    500 "Spleeter failed (preset): text", with the text of the exception.
    The run stops there: the files are as the engine left them (the saved
    upload is not removed), and the mixer is not run. *)
Theorem engine_failure_reported :
  ∀ (w : world) (req : request) (v : validated) (st : state)
    (e : string) (f1 : files),
    validate w req = Continue v →
    need_separate v (fs st) = true →
    separate_to_file w (v_preset v) (in_path_of v) OUTPUT_ROOT (fs (saved v st))
    = (Some e, f1) →
    let stg := with_separator (v_preset v) (saved v st) in
    process w req st
    = (Text ("Spleeter failed (" +:+ v_preset v +:+ "): " +:+ e) 500,
       State f1 (separators stg)
             (trace stg ++ [EvSeparate (v_preset v) (in_path_of v) OUTPUT_ROOT]))
    ∧ mixer_calls (trace (snd (process w req st))) = mixer_calls (trace st).
Proof.
  intros w req v st e f1 Hv Hneed Hsep. cbv zeta.
  rewrite process_validate, Hv, run_validated_unfold.
  rewrite (prepare_miss _ _ _ (validate_preset_known _ _ _ Hv) Hneed). cbv zeta.
  rewrite Hsep. simpl. split; [done|].
  rewrite with_separator_trace. unfold saved. simpl.
  rewrite !mixer_calls_app. simpl. case_match; simpl; by rewrite !app_nil_r.
Qed.

Lemma engine_failure_reported_witness :
  process failing_engine_world (single_request "drums" "remove" None) empty_state
  = (Text "Spleeter failed (4stems): out of memory" 500,
     State {["uploads/song.mp3" := 1000]} {["4stems"]}
           [EvSave "uploads/song.mp3" 1000; EvMkdir "static/output/song";
            EvNewSeparator "4stems";
            EvSeparate "4stems" "uploads/song.mp3" "static/output"]).
Proof.
  pose proof (engine_failure_reported failing_engine_world
                (single_request "drums" "remove" None)
                (Validated 1000 "song.mp3" false [] "drums" "remove" "4stems")
                empty_state "out of memory"
                {["uploads/song.mp3" := 1000]}) as H.
  cbv zeta in H. destruct H as [H _].
  - vm_compute. reflexivity.
  - vm_compute. reflexivity.
  - vm_compute. reflexivity.
  - rewrite H. vm_compute. reflexivity.
Defined.



(** X16.  Once the stems are there and the keep list is not empty, the
    mixer's exit decides the answer: the result page when it exits with
    status 0, the 500 "FFmpeg mix failed: text" when it exits non-zero
    with a message, and the result page again when it exits non-zero with
    nothing on its standard error.  The mixer is run once either way and
    the files are as it left them. *)
Theorem mixer_exit_decides_response :
  ∀ (w : world) (req : request) (v : validated) (st stp : state)
    sp keep label res (f' : files),
    validate w req = Continue v →
    prepare w v st = (Continue sp, stp) →
    planned w req = Some (keep, label) →
    keep ≠ [] →
    subprocess_run w (ffmpeg_args keep (mix_path_of v label)) (fs stp) = (res, f') →
    process w req st
    = (match res with
       | Completed => result_page w v label
       | CalledProcessError e =>
           if bool_decide (e = "") then result_page w v label
           else Text ("FFmpeg mix failed: " +:+ e) 500
       end,
       State f' (separators stp)
             (trace stp ++ [EvRun (ffmpeg_args keep (mix_path_of v label))])).
Proof.
  intros w req v st stp sp keep label res f' Hv Hp Hplan Hne Hrun.
  rewrite process_validate, Hv, run_validated_unfold, Hp.
  apply prepare_continue in Hp as [-> _].
  rewrite (mix_and_respond_mix _ _ _ _ keep label);
    [|by eapply planned_decide_keep|done].
  cbv zeta. rewrite Hrun. destruct res as [|e]; [done|].
  by destruct (bool_decide (e = "")).
Qed.

Lemma mixer_exit_decides_response_witness :
  fst (process failing_mixer_world (single_request "bass" "solo" None) empty_state)
  = Text "FFmpeg mix failed: Invalid data found" 500.
Proof.
  refine (f_equal fst
    (mixer_exit_decides_response failing_mixer_world
       (single_request "bass" "solo" None)
       (Validated 1000 "song.mp3" false [] "bass" "solo" "4stems")
       empty_state _ _ ["static/output/song/bass.wav"] "solo_bass"
       (CalledProcessError "Invalid data found") _ _ _ _ _ _)).
  - vm_compute. reflexivity.
  - vm_compute. reflexivity.
  - vm_compute. reflexivity.
  - discriminate.
  - vm_compute. reflexivity.
Defined.

Lemma pretty_preset_known (preset : string) :
  preset ∈ ["2stems"; "4stems"; "5stems"] → pretty_preset preset ∈ ["2"; "4"; "5"].
Proof.
  intros H.
  repeat (apply elem_of_cons in H as [->|H];
          [refine (bool_decide_unpack _ _); vm_compute; exact I|]).
  by apply elem_of_nil in H.
Qed.

Lemma validated_preset_in (w : world) (req : request) (v : validated) :
  validate w req = Continue v → v_preset v ∈ ["2stems"; "4stems"; "5stems"].
Proof.
  intros Hv. destruct (v_is_multi v) eqn:Hm.
  - destruct (validate_multi _ _ _ Hv Hm) as (_ & _ & _ & ->).
    right. apply pick_preset_multi_known.
  - destruct (validate_single _ _ _ Hv Hm) as (_ & _ & _ & ->).
    apply pick_preset_single_known.
Qed.

(** X17.  A rendered result is the page of the validated request and its
    planned label.  It shows the preset as 2, 4 or 5 and the action as
    remove or solo; in multi mode the action shown is remove and the
    removals are the normalised names, each once, in ascending order; in
    single mode no removals are shown. *)
Theorem result_page_contents :
  ∀ (w : world) (req : request) (st st1 : state) (name : string) (ctx : result_ctx),
    process w req st = (Template name ctx, st1) →
    ∃ v keep label,
      validate w req = Continue v
      ∧ planned w req = Some (keep, label)
      ∧ Template name ctx = result_page w v label
      ∧ ctx_preset ctx ∈ ["2"; "4"; "5"]
      ∧ ctx_action ctx ∈ ["remove"; "solo"]
      ∧ ctx_file_name ctx = v_filename v
      ∧ (ctx_is_multi ctx = true →
         ctx_action ctx = "remove"
         ∧ ctx_removals ctx = Py.sorted (removal_set (form_remove_multi req)))
      ∧ (ctx_is_multi ctx = false → ctx_removals ctx = []).
Proof.
  intros w req st st1 name ctx Hrun.
  destruct (validate w req) as [v|r] eqn:Hv.
  2:{ rewrite process_validate, Hv in Hrun.
      apply validate_return in Hv as [body ->]. discriminate Hrun. }
  destruct (process_events w req v st Hv)
    as (stp & o' & st' & Hproc & _ & _ & Hcase).
  rewrite Hproc in Hrun.
  destruct Hcase as [(body & -> & _) | [_ Hmix]]; [discriminate Hrun|].
  destruct (mix_shape w v (stems_paths_for v) stp) as (o2 & st2 & Hmix' & _ & Hst).
  rewrite Hmix in Hmix'. injection Hmix' as <- <-.
  destruct Hst as [[_ [body ->]]
                  | (keep & label & res & f' & Hk & _ & _ & _ & Hres)];
    [discriminate Hrun|].
  destruct Hres as [[-> _] | (e & _ & _ & ->)]; [|discriminate Hrun].
  simpl in Hrun.
  assert (result_page w v label = Template name ctx) as Hpage by congruence.
  clear Hrun. exists v, keep, label. split; [done|].
  split; [by eapply planned_of_decide_keep|]. split; [by rewrite Hpage|].
  unfold result_page in Hpage. injection Hpage as <- <-. simpl.
  split; [apply pretty_preset_known; by eapply validated_preset_in|].
  destruct (v_is_multi v) eqn:Hm.
  - pose proof (list_to_set_removals _ _ _ Hv Hm) as Hset.
    destruct (validate_multi _ _ _ Hv Hm) as (_ & _ & -> & _).
    split; [by left|]. split; [done|]. split; [|done].
    intros _. by rewrite Hset.
  - destruct (validate_single _ _ _ Hv Hm) as (_ & _ & Ha & _).
    split; [done|]. split; [done|]. by split.
Qed.

Lemma result_page_contents_witness :
  ∃ v keep label,
    validate demo_world (multi_request ["drums"; "Bass"; "drums"] None None)
    = Continue v
    ∧ planned demo_world (multi_request ["drums"; "Bass"; "drums"] None None)
      = Some (keep, label)
    ∧ label = "no_bass-drums".
Proof.
  destruct (result_page_contents demo_world
              (multi_request ["drums"; "Bass"; "drums"] None None) empty_state
              (snd (process demo_world
                      (multi_request ["drums"; "Bass"; "drums"] None None)
                      empty_state))
              "result.html"
              (ResultCtx "/static/output/song/song_no_bass-drums.wav" "4" true
                 ["bass"; "drums"] "drums" "remove" "output/song" "song.mp3"))
    as (v & keep & label & Hv & Hplan & _).
  - vm_compute. reflexivity.
  - exists v, keep, label. split; [done|]. split; [done|].
    vm_compute in Hplan. by injection Hplan as _ <-.
Defined.

(** ** Single mode: the target and what is kept *)

Lemma stems_paths_names (out_dir : string) (stems_files : list (string * string)) :
  fst <$> stems_paths_of out_dir stems_files = fst <$> stems_files.
Proof.
  unfold stems_paths_of. rewrite <- !list_fmap_compose.
  apply list_fmap_ext. by intros _ [n wav] _.
Qed.

(** The three ways a single-mode request pairs a preset with its target. *)
Lemma single_preset_target (w : world) (req : request) (v : validated) :
  validate w req = Continue v → v_is_multi v = false →
  (v_preset v = "5stems" ∧ v_instrument v = "piano")
  ∨ (v_preset v = "2stems" ∧ v_instrument v = "vocals")
  ∨ (v_preset v = "4stems" ∧ v_instrument v ≠ "piano").
Proof.
  intros Hv Hm. pose proof (validated_instrument_normalised _ _ _ Hv) as Hn.
  destruct (validate_single _ _ _ Hv Hm) as (_ & _ & _ & ->).
  unfold pick_preset_single. rewrite Hn.
  destruct (bool_decide (v_instrument v = "piano")) eqn:E1.
  - apply bool_decide_eq_true in E1. by left.
  - apply bool_decide_eq_false in E1. right.
    destruct (truthy_flag (form_karaoke req)); simpl; [|by right].
    destruct (bool_decide (v_instrument v = "vocals")) eqn:E2; [|by right].
    apply bool_decide_eq_true in E2. by left.
Qed.

(** X18.  In single mode the target is a stem of the chosen preset
    exactly when it is one of vocals, drums, bass, other and piano.  So
    "accompaniment", which only 2stems produces, is never available:
    2stems is chosen for the target "vocals" alone. *)
Theorem available_single_targets :
  ∀ (w : world) (req : request) (v : validated),
    validate w req = Continue v →
    v_is_multi v = false →
    (v_instrument v ∈ fst <$> stems_paths_for v
     ↔ v_instrument v ∈ ["vocals"; "drums"; "bass"; "other"; "piano"])
    ∧ (v_instrument v = "accompaniment" →
       v_instrument v ∉ fst <$> stems_paths_for v).
Proof.
  intros w req v Hv Hm. unfold stems_paths_for. rewrite stems_paths_names.
  destruct (single_preset_target _ _ _ Hv Hm)
    as [[-> ->] | [[-> ->] | [-> Hp]]]; simpl.
  - split; [|done]. rewrite !elem_of_cons. tauto.
  - split; [|done]. rewrite !elem_of_cons. tauto.
  - rewrite !elem_of_cons, !elem_of_nil. split; [tauto|]. intros ->.
    intros [H|[H|[H|[H|[]]]]]; discriminate H.
Qed.

Lemma available_single_targets_witness :
  "accompaniment"
  ∉ fst <$> stems_paths_for
              (Validated 1000 "song.mp3" false [] "accompaniment" "remove" "4stems").
Proof.
  refine (proj2 (available_single_targets demo_world
                   (single_request "accompaniment" "remove" (Some "1"))
                   (Validated 1000 "song.mp3" false [] "accompaniment" "remove"
                      "4stems") _ _) _).
  - vm_compute. reflexivity.
  - reflexivity.
  - reflexivity.
Defined.

(** X19.  In single mode with an unavailable target, once the stems are
    there the answer is the 400 "Target stem 'x' not present in preset."
    and the mixer is not run: the state is the one the stem stage left.
    The separation has been paid for by then. *)
Theorem unavailable_target_rejected :
  ∀ (w : world) (req : request) (v : validated) (st stp : state) sp,
    validate w req = Continue v →
    v_is_multi v = false →
    v_instrument v ∉ fst <$> stems_paths_for v →
    prepare w v st = (Continue sp, stp) →
    process w req st
    = (Text ("Target stem '" +:+ v_instrument v +:+ "' not present in "
             +:+ v_preset v +:+ ".") 400, stp).
Proof.
  intros w req v st stp sp Hv Hm Hout Hp.
  rewrite process_validate, Hv, run_validated_unfold, Hp.
  apply prepare_continue in Hp as [-> _].
  unfold mix_and_respond, bind, lift, decide_keep. rewrite Hm.
  rewrite (bool_decide_eq_false_2 (v_instrument v ∈ fst <$> _) Hout). simpl.
  destruct (single_preset_target _ _ _ Hv Hm)
    as [[Hpre Ht] | [[Hpre Ht] | [Hpre Ht]]]; rewrite Hpre; try rewrite Ht;
    simpl; reflexivity.
Qed.

Lemma unavailable_target_rejected_witness :
  fst (process demo_world (single_request "Guitar" "remove" None) empty_state)
  = Text "Target stem 'guitar' not present in 4stems." 400.
Proof.
  refine (f_equal fst
    (unavailable_target_rejected demo_world (single_request "Guitar" "remove" None)
       (Validated 1000 "song.mp3" false [] "guitar" "remove" "4stems")
       empty_state _ _ _ _ _ _)).
  - vm_compute. reflexivity.
  - reflexivity.
  - refine (bool_decide_unpack _ _); vm_compute; exact I.
  - vm_compute. reflexivity.
Defined.

Lemma available_targets_of_preset (w : world) (req : request) (v : validated) :
  validate w req = Continue v → v_is_multi v = false →
  v_instrument v ∈ fst <$> stems_paths_for v →
  (v_preset v = "5stems" ∧ v_instrument v = "piano")
  ∨ (v_preset v = "2stems" ∧ v_instrument v = "vocals")
  ∨ (v_preset v = "4stems"
     ∧ v_instrument v ∈ ["vocals"; "drums"; "bass"; "other"]).
Proof.
  intros Hv Hm. unfold stems_paths_for. rewrite stems_paths_names.
  destruct (single_preset_target _ _ _ Hv Hm)
    as [[-> ->] | [[-> ->] | [-> Hp]]]; simpl; intros H.
  - by left.
  - right. by left.
  - right. by right.
Qed.

(** X20.  In single mode with an available target there is always
    something to mix.  For "remove" the label is "no_" and the target,
    and the keep list is every stem path of the preset but one; for
    "solo" the label is "solo_" and the target, and the keep list is the
    path of the target's file alone.  So "Nothing to mix" is an answer of
    multi mode only. *)
Theorem single_mode_plan :
  ∀ (w : world) (req : request) (v : validated),
    validate w req = Continue v →
    v_is_multi v = false →
    v_instrument v ∈ fst <$> stems_paths_for v →
    ∃ keep label,
      planned w req = Some (keep, label)
      ∧ keep ≠ []
      ∧ (v_action v = "remove" →
         label = "no_" +:+ v_instrument v
         ∧ S (length keep) = length (stems_paths_for v)
         ∧ keep = snd <$> filter (λ '(stem, _), stem ≠ v_instrument v)
                            (stems_paths_for v))
      ∧ (v_action v = "solo" →
         label = "solo_" +:+ v_instrument v
         ∧ keep = [path_join (out_dir_of v) (v_instrument v +:+ ".wav")]).
Proof.
  intros w req v Hv Hm Hin.
  destruct (validate_single _ _ _ Hv Hm) as (_ & _ & Hact & _).
  apply (available_targets_of_preset w req v Hv Hm) in Hin.
  unfold planned. rewrite Hv. unfold decide_keep, stems_paths_for.
  generalize (out_dir_of v). intros o. rewrite Hm.
  destruct Hin as [[Hpre Ht] | [[Hpre Ht] | [Hpre Ht]]]; rewrite Hpre.
  - rewrite Ht. apply elem_of_cons in Hact as [->|Hact];
      [|apply list_elem_of_singleton in Hact as ->];
      eexists _, _; (split; [reflexivity|]); repeat split; done.
  - rewrite Ht. apply elem_of_cons in Hact as [->|Hact];
      [|apply list_elem_of_singleton in Hact as ->];
      eexists _, _; (split; [reflexivity|]); repeat split; done.
  - repeat (apply elem_of_cons in Ht as [->|Ht];
            [apply elem_of_cons in Hact as [->|Hact];
             [|apply list_elem_of_singleton in Hact as ->];
             eexists _, _; (split; [reflexivity|]); repeat split; done|]).
    by apply elem_of_nil in Ht.
Qed.

Lemma single_mode_plan_witness :
  ∃ keep label,
    planned demo_world (single_request "piano" "remove" (Some "on"))
    = Some (keep, label)
    ∧ keep ≠ [].
Proof.
  destruct (single_mode_plan demo_world (single_request "piano" "remove" (Some "on"))
              (Validated 1000 "song.mp3" false [] "piano" "remove" "5stems"))
    as (keep & label & Hplan & Hne & _).
  - vm_compute. reflexivity.
  - reflexivity.
  - refine (bool_decide_unpack _ _); vm_compute; exact I.
  - by exists keep, label.
Defined.

(** ** Multi mode: what is kept *)

Lemma filter_nil_all {A} (P : A → Prop) `{∀ x, Decision (P x)} (l : list A) :
  filter P l = [] ↔ ∀ x, x ∈ l → ¬ P x.
Proof.
  split.
  - intros E x Hx HP. assert (x ∈ filter P l) as Hin by by apply list_elem_of_filter.
    rewrite E in Hin. by apply elem_of_nil in Hin.
  - intros Hall. induction l as [|a l IH]; [done|].
    rewrite filter_cons. destruct (decide (P a)) as [HP|HP].
    + exfalso. apply (Hall a); [by left|done].
    + apply IH. intros x Hx. apply Hall. by right.
Qed.

Lemma filter_all_kept {A} (P : A → Prop) `{∀ x, Decision (P x)} (l : list A) :
  (∀ x, x ∈ l → P x) → filter P l = l.
Proof.
  intros Hall. induction l as [|a l IH]; [done|].
  rewrite filter_cons. destruct (decide (P a)) as [HP|HP].
  - f_equal. apply IH. intros x Hx. apply Hall. by right.
  - exfalso. apply HP, Hall. by left.
Qed.

(** X21.  In multi mode the keep list holds the path of a stem exactly
    when the stem's name is not among the normalised removals.  It is
    empty exactly when every stem of the preset is removed, and it is the
    whole stem list when no removal names a stem of the preset: names that
    are no stems are ignored. *)
Theorem multi_mode_plan :
  ∀ (w : world) (req : request) (v : validated),
    validate w req = Continue v →
    v_is_multi v = true →
    ∃ keep label,
      planned w req = Some (keep, label)
      ∧ (∀ p, p ∈ keep
              ↔ ∃ name, (name, p) ∈ stems_paths_for v
                        ∧ name ∉ removal_set (form_remove_multi req))
      ∧ (keep = []
         ↔ ∀ name, name ∈ fst <$> stems_paths_for v →
                   name ∈ removal_set (form_remove_multi req))
      ∧ ((∀ name, name ∈ fst <$> stems_paths_for v →
                  name ∉ removal_set (form_remove_multi req)) →
         keep = snd <$> stems_paths_for v).
Proof.
  intros w req v Hv Hm. eexists _, _.
  split; [by apply planned_multi|]. split; [|split].
  - intros p. rewrite list_elem_of_fmap. split.
    + intros ([name q] & -> & Hin). apply list_elem_of_filter in Hin as [Hn Hin].
      by exists name.
    + intros (name & Hin & Hn). exists (name, p). split; [done|].
      by apply list_elem_of_filter.
  - split.
    + intros E%fmap_nil_inv name Hin.
      apply list_elem_of_fmap in Hin as ([n q] & -> & Hin). simpl.
      pose proof (proj1 (filter_nil_all _ _) E (n, q) Hin) as Hnot. simpl in Hnot.
      by destruct (decide (n ∈ removal_set (form_remove_multi req))).
    + intros Hall. by rewrite (filter_all_removed _ _ Hall).
  - intros Hall. f_equal. apply filter_all_kept. intros [n q] Hin.
    apply Hall. by apply (list_elem_of_fmap_2 fst _ (n, q)).
Qed.

Lemma multi_mode_plan_witness :
  ∃ keep label,
    planned demo_world (multi_request ["guitar"; "drums"] None None)
    = Some (keep, label)
    ∧ keep = ["static/output/song/vocals.wav"; "static/output/song/bass.wav";
              "static/output/song/other.wav"].
Proof.
  destruct (multi_mode_plan demo_world (multi_request ["guitar"; "drums"] None None)
              (Validated 1000 "song.mp3" true ["guitar"; "drums"] "drums" "remove"
                 "4stems"))
    as (keep & label & Hplan & _).
  - vm_compute. reflexivity.
  - reflexivity.
  - exists keep, label. split; [done|].
    vm_compute in Hplan. by injection Hplan as <- _.
Defined.

(** ** The upload is transient *)

Lemma in_path_ne_mix_path (v : validated) (label : string) :
  in_path_of v ≠ mix_path_of v label.
Proof. discriminate. Qed.

Lemma unlinked_lookup (w : world) (p : string) (f : files) :
  unlink_never_raises w → unlinked w p f !! p = None.
Proof. intros H. unfold unlinked. rewrite H. apply lookup_delete_eq. Qed.

Lemma prepare_continue_unlinked (w : world) (v : validated) (st stp : state) sp :
  unlink_never_raises w →
  is_Some (expected_stems_for (v_preset v)) →
  prepare w v st = (Continue sp, stp) →
  fs stp !! in_path_of v = None.
Proof.
  intros Hu Hk. destruct (need_separate v (fs st)) eqn:Hneed.
  - rewrite (prepare_miss _ _ _ Hk Hneed). cbv zeta.
    destruct (separate_to_file _ _ _ _ _) as [[e|] f1]; [done|].
    destruct (missing_stems _ _); [|done]. intros [= _ <-]. simpl.
    by apply unlinked_lookup.
  - rewrite prepare_hit; [|done|by apply stems_all_present].
    intros [= _ <-]. simpl. by apply (unlinked_lookup w).
Qed.

(** X22.  The saved upload does not outlive the stem stage: when
    removing a file does not fail and the mixer writes its output file
    only, a request that gets past the stem stage leaves no file at the
    upload path, whatever its answer. *)
Theorem upload_removed :
  ∀ (w : world) (req : request) (v : validated) (st stp : state) sp,
    unlink_never_raises w →
    mixer_writes_output_only w →
    validate w req = Continue v →
    prepare w v st = (Continue sp, stp) →
    fs (snd (process w req st)) !! in_path_of v = None.
Proof.
  intros w req v st stp sp Hu Hframe Hv Hp.
  pose proof (prepare_continue_unlinked _ _ _ _ _ Hu
                (validate_preset_known _ _ _ Hv) Hp) as Hgone.
  rewrite process_validate, Hv, snd_finish, run_validated_unfold, Hp.
  destruct (mix_shape w v sp stp) as (o & st' & -> & _ & Hst). simpl.
  destruct Hst as [[-> _] | (keep & label & res & f' & _ & _ & Hrun & -> & _)];
    [done|].
  simpl. replace f' with (snd (subprocess_run w
           (ffmpeg_args keep (mix_path_of v label)) (fs stp))) by by rewrite Hrun.
  rewrite Hframe; [done|]. apply in_path_ne_mix_path.
Qed.

Lemma upload_removed_witness :
  fs (snd (process demo_world (single_request "drums" "remove" None) empty_state))
  !! "uploads/song.mp3" = None.
Proof.
  refine (upload_removed demo_world (single_request "drums" "remove" None)
            (Validated 1000 "song.mp3" false [] "drums" "remove" "4stems")
            empty_state _ _ _ demo_mixer_writes_output_only _ _).
  - by intros p f.
  - vm_compute. reflexivity.
  - vm_compute. reflexivity.
Defined.

(** ** The arguments of the mixer *)

Lemma input_flags_lookup (inputs : list string) (i : nat) (p : string) :
  inputs !! i = Some p →
  concat ((λ q, ["-i"; q]) <$> inputs) !! (2 * i)%nat = Some "-i"
  ∧ concat ((λ q, ["-i"; q]) <$> inputs) !! S (2 * i) = Some p.
Proof.
  revert i. induction inputs as [|q inputs IH]; intros i; [done|].
  destruct i as [|i]; simpl.
  - by intros [= ->].
  - intros H. replace (i + S (i + 0))%nat with (S (2 * i)) by lia.
    simpl. by apply IH.
Qed.

Lemma input_flags_length (inputs : list string) :
  length (concat ((λ q, ["-i"; q]) <$> inputs)) = (2 * length inputs)%nat.
Proof.
  induction inputs as [|q inputs IH]; [done|].
  rewrite fmap_cons. cbn [concat app length]. rewrite IH. lia.
Qed.

(** X23.  The command line of the mixer: it starts with ffmpeg -y, every
    input path follows its own -i flag, in the order of the keep list,
    and the output path comes last; for n inputs there are 2n + 7
    arguments. *)
Theorem ffmpeg_args_layout :
  ∀ (inputs : list string) (output : string),
    length (ffmpeg_args inputs output) = (2 * length inputs + 7)%nat
    ∧ ffmpeg_args inputs output !! 0%nat = Some "ffmpeg"
    ∧ ffmpeg_args inputs output !! 1%nat = Some "-y"
    ∧ last (ffmpeg_args inputs output) = Some output
    ∧ ∀ (i : nat) (p : string),
        inputs !! i = Some p →
        ffmpeg_args inputs output !! (2 + 2 * i)%nat = Some "-i"
        ∧ ffmpeg_args inputs output !! (3 + 2 * i)%nat = Some p.
Proof.
  intros inputs output. split; [|split; [done|split; [done|split]]].
  - unfold ffmpeg_args. cbv zeta. rewrite !length_app, input_flags_length.
    simpl. lia.
  - apply ffmpeg_args_last.
  - intros i p Hi. destruct (input_flags_lookup _ _ _ Hi) as [H1 H2].
    unfold ffmpeg_args. cbv zeta.
    assert (S (2 * i) < length (concat ((λ q, ["-i"; q]) <$> inputs)))%nat as Hlt
      by by apply lookup_lt_is_Some; eexists.
    split.
    + rewrite lookup_app_l by (simpl in *; lia). exact H1.
    + rewrite lookup_app_l by (simpl in *; lia). exact H2.
Qed.

Lemma ffmpeg_args_layout_witness :
  ffmpeg_args ["a.wav"; "b.wav"] "out.wav" !! 5%nat = Some "b.wav".
Proof.
  apply (ffmpeg_args_layout ["a.wav"; "b.wav"] "out.wav") with (i := 1%nat).
  reflexivity.
Defined.

(** ** The catalogue, and what a cache hit leaves *)

(** X24.  The catalogue knows 2stems, 4stems and 5stems and nothing
    else.  For a known preset the stem names are distinct, every stem's
    file is its name followed by ".wav", "vocals" is always a stem, and
    there are at least two stems. *)
Theorem expected_stems_catalogue :
  ∀ preset : string,
    (is_Some (expected_stems_for preset)
     ↔ preset ∈ ["2stems"; "4stems"; "5stems"])
    ∧ ∀ stems_files,
        expected_stems_for preset = Some stems_files →
        NoDup (fst <$> stems_files)
        ∧ (∀ name wav, (name, wav) ∈ stems_files → wav = name +:+ ".wav")
        ∧ "vocals" ∈ fst <$> stems_files
        ∧ (2 ≤ length stems_files)%nat.
Proof.
  intros preset. unfold expected_stems_for. split.
  - rewrite !elem_of_cons, elem_of_nil.
    repeat case_match;
      repeat match goal with
             | H : bool_decide _ = true |- _ => apply bool_decide_eq_true in H
             | H : bool_decide _ = false |- _ => apply bool_decide_eq_false in H
             end; split; try tauto; try (by eexists); by intros [? ?].
  - intros stems_files H.
    repeat case_match; simplify_eq/=.
    all: split; [by apply (bool_decide_unpack _)|].
    all: split; [|split; [by left|lia]].
    all: intros name wav Hin;
      repeat (apply elem_of_cons in Hin as [[= -> ->]|Hin]; [reflexivity|]);
      by apply elem_of_nil in Hin.
Qed.

Lemma expected_stems_catalogue_witness :
  NoDup (fst <$> [("vocals", "vocals.wav"); ("accompaniment", "accompaniment.wav")]).
Proof.
  refine (proj1 (proj2 (expected_stems_catalogue "2stems") _ _)).
  reflexivity.
Defined.

(** X25.  A cache hit leaves the stems alone to the end of the run: when
    every stem file of the preset is there and the mixer writes its
    output file only, each stem file has at the end of the request the
    size it had at the start. *)
Theorem cache_hit_preserves_stems :
  ∀ (w : world) (req : request) (v : validated) (st : state),
    mixer_writes_output_only w →
    validate w req = Continue v →
    need_separate v (fs st) = false →
    ∀ p, p ∈ snd <$> stems_paths_for v →
         fs (snd (process w req st)) !! p = fs st !! p.
Proof.
  intros w req v st Hframe Hv Hneed p Hp.
  destruct (validate_preset_known _ _ _ Hv) as [stems_files Hfiles].
  rewrite process_validate, Hv, snd_finish, run_validated_unfold.
  rewrite prepare_hit; [|by eexists|by apply stems_all_present].
  destruct (mix_shape w v (stems_paths_for v)
              (State (after_hit w v (fs st)) (separators st)
                 (trace st ++ [EvSave (in_path_of v) (v_size v);
                               EvMkdir (out_dir_of v); EvUnlink (in_path_of v)])))
    as (o & st' & -> & _ & Hst). simpl.
  destruct Hst as [[-> _] | (keep & label & res & f' & _ & _ & Hrun & -> & _)];
    simpl in *.
  - by apply after_hit_stem.
  - replace f' with (snd (subprocess_run w
        (ffmpeg_args keep (mix_path_of v label)) (after_hit w v (fs st))))
      by by rewrite Hrun.
    rewrite Hframe; [by apply after_hit_stem|].
    intros ->. unfold stems_paths_for in Hp. rewrite Hfiles in Hp.
    exact (mix_path_not_stem v label _ _ Hfiles Hp).
Qed.

Lemma cache_hit_preserves_stems_witness :
  let st1 := snd (process demo_world (single_request "drums" "remove" None)
                    empty_state) in
  fs (snd (process demo_world (single_request "bass" "solo" None) st1))
  !! "static/output/song/vocals.wav"
  = fs st1 !! "static/output/song/vocals.wav".
Proof.
  intros st1.
  refine (cache_hit_preserves_stems demo_world (single_request "bass" "solo" None)
            (Validated 1000 "song.mp3" false [] "bass" "solo" "4stems") st1
            demo_mixer_writes_output_only _ _ _ _).
  - vm_compute. reflexivity.
  - vm_compute. reflexivity.
  - refine (bool_decide_unpack _ _); vm_compute; exact I.
Defined.

(** ** Spelling of the form fields *)

Lemma removal_list_normalised (rm : list string) :
  (λ x, normalize_instrument_name (Some x))
    <$> ((λ x, normalize_instrument_name (Some x)) <$> rm)
  = (λ x, normalize_instrument_name (Some x)) <$> rm.
Proof.
  rewrite <- list_fmap_compose. apply list_fmap_ext. intros _ x _. simpl.
  apply normalize_instrument_name_idemp.
Qed.

(** X26.  The spelling of instrument names does not matter: a request
    gets the same response and final state when its instrument and its
    removal names are replaced by their normalised forms. *)
Theorem spelling_is_irrelevant :
  ∀ (w : world) (f : option upload) (m : option string) (rm : list string)
    (i : string) (a k : option string) (st : state),
    process w (Request f m rm (Some i) a k) st
    = process w
        (Request f m ((λ x, normalize_instrument_name (Some x)) <$> rm)
           (Some (normalize_instrument_name (Some i))) a k) st.
Proof.
  intros w f m rm i a k st. rewrite !process_validate.
  assert (validate w (Request f m rm (Some i) a k)
          = validate w
              (Request f m ((λ x, normalize_instrument_name (Some x)) <$> rm)
                 (Some (normalize_instrument_name (Some i))) a k)) as ->; [|done].
  unfold validate. simpl.
  rewrite normalize_instrument_name_idemp.
  by rewrite removal_list_normalised.
Qed.

(** X27.  An action field of white space only is refused, although an
    empty one means "remove": the default is taken before the field is
    trimmed. *)
Theorem blank_action_refused :
  ∀ (w : world) (req : request) (st : state) (name : string) (size : N)
    (s : string),
    audio_file req = Some (Upload (Some name) size) → name ≠ "" →
    ext_of w name ∈ ALLOWED →
    form_action req = Some s → s ≠ "" → Py.strip s = "" →
    process w req st = (Text "Invalid action" 400, st).
Proof.
  intros w req st name size s Hf Hn Hext Ha Hs Hblank.
  rewrite process_validate. unfold validate. rewrite Hf, Ha.
  destruct name as [|c r]; [done|]. fold (ext_of w (String c r)).
  rewrite (bool_decide_eq_true_2 _ Hext). simpl.
  destruct s as [|c' r']; [done|]. simpl Py.or_else. by rewrite Hblank.
Qed.

Lemma blank_action_refused_witness :
  process demo_world (single_request "drums" "  " None) empty_state
  = (Text "Invalid action" 400, empty_state).
Proof.
  apply (blank_action_refused demo_world _ empty_state "song.mp3" 1000 "  ").
  - reflexivity.
  - discriminate.
  - refine (bool_decide_unpack _ _); vm_compute; exact I.
  - reflexivity.
  - discriminate.
  - reflexivity.
Defined.

Lemma two_stems_guards_unreachable_witness :
  decide_keep (Validated 1000 "song.mp3" false [] "vocals" "solo" "2stems")
    (stems_paths_for (Validated 1000 "song.mp3" false [] "vocals" "solo" "2stems"))
  ≠ Return (Text "'vocals' not available in 2-stems." 400).
Proof.
  refine (proj2 (two_stems_guards_unreachable demo_world
                   (single_request "vocals" "solo" (Some "on")))
            (Validated 1000 "song.mp3" false [] "vocals" "solo" "2stems") _ _).
  vm_compute. reflexivity.
Defined.
